(** * ERP attendance and service-ticket engine (erp.py)

    A shallow embedding of the Streamlit/SQLAlchemy application in
    [erp.py]: the three tables, the helper functions and every page
    function that touches the database.  A page function is one run of the
    script body: it reads the widgets' values, possibly commits one change
    and writes its output.  Here it is a function from the run's inputs and
    the database to the new database and the list of things it rendered. *)

From Stdlib Require Import ZArith QArith Lia.
From stdpp Require Import base decidable numbers strings pretty sorting option list.

Local Open Scope string_scope.
Local Open Scope list_scope.
Local Open Scope Z_scope.

(** ** Python values stored in the tables *)

(** [datetime.date], by its proleptic ordinal; comparisons on dates are
    comparisons on ordinals. *)
Definition date := Z.
(** [datetime.time], in microseconds since midnight. *)
Definition time := Z.
(** [datetime.datetime], in microseconds since the epoch. *)
Definition datetime := Z.

(** [bcrypt.hashpw(password, salt)], kept symbolic: the hash of a password
    under a salt is the pair itself, and [bcrypt.checkpw] recomputes the
    hash under the stored salt and compares. *)
Inductive bcrypt_hash := Hashpw (password salt : string).

Global Instance bcrypt_hash_eq_dec : EqDecision bcrypt_hash.
Proof. solve_decision. Defined.

Definition checkpw (password : string) (hashed : bcrypt_hash) : bool :=
  match hashed with
  | Hashpw _ salt => bool_decide (Hashpw password salt = hashed)
  end.

(** ** Database models *)

Record User := mkUser {
  user_id : Z;
  full_name : string;
  phone_number : string;
  email : string;
  aadhar_number : string;
  service_domain : string;
  role : string;
  level_of_employment : string;
  date_of_joining : date;
  salary : Q;
  certifications : string;
  password_hash : bcrypt_hash
}.

Record Attendance := mkAttendance {
  attendance_id : Z;
  a_user_id : Z;
  a_date : date;
  check_in : option time;
  check_out : option time
}.

Record ServiceTicket := mkServiceTicket {
  ticket_id : Z;
  client_id : Z;
  service_type : string;
  description : string;
  assigned_to : option Z;
  status : string;
  created_at : datetime;
  updated_at : datetime
}.

Global Instance Attendance_eq_dec : EqDecision Attendance.
Proof. solve_decision. Defined.

Global Instance ServiceTicket_eq_dec : EqDecision ServiceTicket.
Proof. solve_decision. Defined.

(** The three tables, each in insertion (rowid) order. *)
Record DB := mkDB {
  users : list User;
  attendance : list Attendance;
  service_tickets : list ServiceTicket
}.

(** [Base.metadata.create_all] on a fresh file. *)
Definition empty_db : DB := mkDB [] [] [].

(** An [Integer] primary key left unset on insert: SQLite gives the row the
    largest key in the table plus one. *)
Definition next_id (ids : list Z) : Z := 1 + foldr Z.max 0 ids.

(** Committing a changed row writes it back under its primary key [k]:
    [UPDATE ... WHERE k = ...]. *)
Definition replace_row {A} (k : A → Z) (x' : A) (l : list A) : list A :=
  (λ a, if decide (k a = k x') then x' else a) <$> l.

(** ** One run of the script: inputs and rendered output *)

(** What a run reads from outside the database: the clock, the salt
    generator and the state of the widgets, by widget key (the label when
    no key is given).  A run commits at most once, and the clock readings
    of that commit ([datetime.utcnow] for both timestamp defaults) are
    taken as one reading. *)
Record Inputs := mkInputs {
  today : date;
  now_time : time;
  utcnow : datetime;
  gensalt : string;
  text_value : string → string;
  selectbox_value : string → option string;
  date_value : string → option date;
  number_value : string → option Q;
  button_clicked : string → bool
}.

(** The pieces of an f-string: literal text and formatted values. *)
Inductive frag :=
  | Lit (s : string)
  | FInt (z : Z)
  | FStr (s : string)
  | FDate (d : date)
  | FTime (t : option time).

Inductive event :=
  | StHeader (s : string)
  | StWrite (f : list frag)
  | StSuccess (f : list frag)
  | StError (s : string)
  | StTextInput (label : string)
  | StTextArea (label : string)
  | StSelectbox (key : string) (options : list string)
  | StDateInput (label : string)
  | StNumberInput (label : string)
  | StButton (key : string)
  | StRerun
  | Raised (exn : string).

Global Instance frag_eq_dec : EqDecision frag.
Proof. solve_decision. Defined.

Global Instance event_eq_dec : EqDecision event.
Proof. solve_decision. Defined.

(** [st.selectbox]: the chosen option, always one of [options]; the first
    one until the user picks another, [None] when there is none. *)
Definition st_selectbox (inp : Inputs) (key : string) (options : list string)
    : option string :=
  match selectbox_value inp key with
  | Some c => if decide (c ∈ options) then Some c else head options
  | None => head options
  end.

(** [st.date_input(label, value)] and [st.number_input(label, value=...)]. *)
Definition st_date_input (inp : Inputs) (label : string) (value : date) : date :=
  default value (date_value inp label).

Definition st_number_input (inp : Inputs) (label : string) (value : Q) : Q :=
  default value (number_value inp label).

(** The two ways a run reports a failure: [st.error] and an exception that
    leaves the script. *)
Definition is_failure (e : event) : bool :=
  match e with
  | StError _ | Raised _ => true
  | _ => false
  end.

Definition signals_failure (out : list event) : bool := existsb is_failure out.

Definition is_success (e : event) : bool :=
  match e with
  | StSuccess _ => true
  | _ => false
  end.

(** ** Python dictionaries with string keys, in insertion order *)

Fixpoint dict_set {V} (k : string) (v : V) (d : list (string * V))
    : list (string * V) :=
  match d with
  | [] => [(k, v)]
  | (k', v') :: d' =>
      if decide (k' = k) then (k', v) :: d' else (k', v') :: dict_set k v d'
  end.

Fixpoint dict_get {V} (k : string) (d : list (string * V)) : option V :=
  match d with
  | [] => None
  | (k', v') :: d' => if decide (k' = k) then Some v' else dict_get k d'
  end.

(** [{k: v for ...}] over the pairs in order. *)
Definition dict_of {V} (kvs : list (string * V)) : list (string * V) :=
  foldl (λ d kv, dict_set kv.1 kv.2 d) [] kvs.

Definition dict_keys {V} (d : list (string * V)) : list string := fst <$> d.

(** ** Helper functions *)

Definition hash_password (inp : Inputs) (password : string) : bcrypt_hash :=
  Hashpw password (gensalt inp).

Definition verify_password (password : string) (hashed : bcrypt_hash) : bool :=
  checkpw password hashed.

Definition get_user_by_email (db : DB) (e : string) : option User :=
  head (filter (λ u, email u = e) (users db)).

(** The [user_data] dictionary: the keys read with [user_data[...]] are
    required, those read with [user_data.get(..., default)] optional. *)
Record UserData := mkUserData {
  ud_full_name : string;
  ud_phone_number : string;
  ud_email : string;
  ud_aadhar_number : string;
  ud_service_domain : option string;
  ud_role : string;
  ud_level_of_employment : option string;
  ud_date_of_joining : option date;
  ud_salary : option Q;
  ud_certifications : option string;
  ud_password : string
}.

Inductive result (A : Type) :=
  | Ok (a : A)
  | Raise (exn : string).
Arguments Ok {A} a.
Arguments Raise {A} exn.

(** [create_user]: builds the row and commits it.  The commit raises
    [IntegrityError] when the e-mail or the Aadhar number is already in the
    table ([unique=True]); nothing is stored then. *)
Definition create_user (inp : Inputs) (user_data : UserData) (db : DB)
    : DB * result User :=
  let new_user := {|
    user_id := next_id (user_id <$> users db);
    full_name := ud_full_name user_data;
    phone_number := ud_phone_number user_data;
    email := ud_email user_data;
    aadhar_number := ud_aadhar_number user_data;
    service_domain := default "" (ud_service_domain user_data);
    role := ud_role user_data;
    level_of_employment := default "" (ud_level_of_employment user_data);
    date_of_joining := default (today inp) (ud_date_of_joining user_data);
    salary := default 0%Q (ud_salary user_data);
    certifications := default "" (ud_certifications user_data);
    password_hash := hash_password inp (ud_password user_data)
  |} in
  if decide (email new_user ∈ email <$> users db
             ∨ aadhar_number new_user ∈ aadhar_number <$> users db)
  then (db, Raise "IntegrityError")
  else (mkDB (users db ++ [new_user]) (attendance db) (service_tickets db),
        Ok new_user).

Definition authenticate_user (db : DB) (e password : string) : option User :=
  match get_user_by_email db e with
  | Some user =>
      if verify_password password (password_hash user) then Some user else None
  | None => None
  end.

(** ** Admin: register a new user *)

Definition ROLES : list string := ["staff"; "client"; "manager"; "admin"].

Definition register_user (inp : Inputs) (db : DB) : DB * list event :=
  let full_name := text_value inp "Full Name" in
  let phone_number := text_value inp "Phone Number" in
  let email := text_value inp "Email" in
  let aadhar_number := text_value inp "Aadhar Card Number" in
  let service_domain := text_value inp "Service Domain" in
  let role := st_selectbox inp "Role" ROLES in
  let level_of_employment := text_value inp "Level of Employment" in
  let date_of_joining := st_date_input inp "Date of Joining" (today inp) in
  let salary := st_number_input inp "Salary" 0%Q in
  let certifications := text_value inp "Certifications" in
  let password := text_value inp "Password" in
  let confirm_password := text_value inp "Confirm Password" in
  let form :=
    [StHeader "Register New User"; StTextInput "Full Name";
     StTextInput "Phone Number"; StTextInput "Email";
     StTextInput "Aadhar Card Number"; StTextInput "Service Domain";
     StSelectbox "Role" ROLES; StTextInput "Level of Employment";
     StDateInput "Date of Joining"; StNumberInput "Salary";
     StTextArea "Certifications"; StTextInput "Password";
     StTextInput "Confirm Password"; StButton "Register"] in
  if button_clicked inp "Register" then
    if decide (password ≠ confirm_password) then
      (db, form ++ [StError "Passwords do not match!"])
    else
      match get_user_by_email db email with
      | Some _ => (db, form ++ [StError "A user with this email already exists!"])
      | None =>
          match role with
          | None => (db, form ++ [Raised "IntegrityError"])
          | Some role =>
              let user_data := {|
                ud_full_name := full_name;
                ud_phone_number := phone_number;
                ud_email := email;
                ud_aadhar_number := aadhar_number;
                ud_service_domain := Some service_domain;
                ud_role := role;
                ud_level_of_employment := Some level_of_employment;
                ud_date_of_joining := Some date_of_joining;
                ud_salary := Some salary;
                ud_certifications := Some certifications;
                ud_password := password
              |} in
              match create_user inp user_data db with
              | (db', Ok _) =>
                  (db', form ++ [StSuccess [Lit "User registered successfully!"]])
              | (db', Raise exn) => (db', form ++ [Raised exn])
              end
          end
      end
  else (db, form).

(** ** Staff: attendance *)

(** [db.query(Attendance).filter(user_id == ..., date == ...).first()] *)
Definition query_attendance_first (db : DB) (uid : Z) (d : date)
    : option Attendance :=
  head (filter (λ a, a_user_id a = uid ∧ a_date a = d) (attendance db)).

Definition add_attendance (db : DB) (a : Attendance) : DB :=
  mkDB (users db) (attendance db ++ [a]) (service_tickets db).

Definition commit_attendance (db : DB) (a' : Attendance) : DB :=
  mkDB (users db) (replace_row attendance_id a' (attendance db))
       (service_tickets db).

(** [attendance_record.check_out = ...] *)
Definition set_check_out (a : Attendance) (t : time) : Attendance :=
  {| attendance_id := attendance_id a;
     a_user_id := a_user_id a;
     a_date := a_date a;
     check_in := check_in a;
     check_out := Some t |}.

Definition staff_attendance (session_user_id : Z) (inp : Inputs) (db : DB)
    : DB * list event :=
  let user_id := session_user_id in
  let attendance_record := query_attendance_first db user_id (today inp) in
  match attendance_record with
  | None =>
      if button_clicked inp "Check In" then
        let new_attendance := {|
          attendance_id := next_id (attendance_id <$> attendance db);
          a_user_id := user_id;
          a_date := today inp;
          check_in := Some (now_time inp);
          check_out := None
        |} in
        (add_attendance db new_attendance,
         [StHeader "Attendance"; StButton "Check In";
          StSuccess [Lit "Checked in successfully!"]; StRerun])
      else (db, [StHeader "Attendance"; StButton "Check In"])
  | Some attendance_record =>
      match check_out attendance_record with
      | None =>
          let shown :=
            [StHeader "Attendance";
             StWrite [Lit "Checked in at: "; FTime (check_in attendance_record)];
             StButton "Check Out"] in
          if button_clicked inp "Check Out" then
            (commit_attendance db (set_check_out attendance_record (now_time inp)),
             shown ++ [StSuccess [Lit "Checked out successfully!"]; StRerun])
          else (db, shown)
      | Some _ =>
          (db,
           [StHeader "Attendance";
            StWrite [Lit "You have already checked in and out for today."];
            StWrite [Lit "Check In: "; FTime (check_in attendance_record);
                     Lit " | Check Out: "; FTime (check_out attendance_record)]])
      end
  end.

(** ** Client: service requests *)

Definition SERVICE_TYPES : list string :=
  ["Housekeeping"; "Pantry"; "Car Driver"; "Data Entry"; "Electrician";
   "Plumber"; "Gardener"].

Definition add_ticket (db : DB) (t : ServiceTicket) : DB :=
  mkDB (users db) (attendance db) (service_tickets db ++ [t]).

Definition client_service_request (session_user_id : Z) (inp : Inputs) (db : DB)
    : DB * list event :=
  let service_type := st_selectbox inp "Service Type" SERVICE_TYPES in
  let description := text_value inp "Description" in
  let shown :=
    [StHeader "Raise Service Request"; StSelectbox "Service Type" SERVICE_TYPES;
     StTextArea "Description"; StButton "Submit Request"] in
  if button_clicked inp "Submit Request" then
    match service_type with
    | None => (db, shown ++ [Raised "IntegrityError"])
    | Some service_type =>
        let new_ticket := {|
          ticket_id := next_id (ticket_id <$> service_tickets db);
          client_id := session_user_id;
          service_type := service_type;
          description := description;
          assigned_to := None;
          status := "Pending";
          created_at := utcnow inp;
          updated_at := utcnow inp
        |} in
        (add_ticket db new_ticket,
         shown ++ [StSuccess [Lit "Service request submitted successfully!"]])
    end
  else (db, shown).

Definition client_ticket_lines (ticket : ServiceTicket) : list event :=
  [StWrite [Lit "**Ticket ID:** "; FInt (ticket_id ticket)];
   StWrite [Lit "**Service Type:** "; FStr (service_type ticket)];
   StWrite [Lit "**Description:** "; FStr (description ticket)];
   StWrite [Lit "**Status:** "; FStr (status ticket)]].

Definition client_view_tickets (session_user_id : Z) (db : DB) : DB * list event :=
  let tickets :=
    filter (λ t, client_id t = session_user_id) (service_tickets db) in
  match tickets with
  | [] => (db, [StHeader "My Service Tickets";
                StWrite [Lit "No service tickets found."]])
  | _ =>
      (db, StHeader "My Service Tickets" ::
           concat ((λ t, client_ticket_lines t ++ [StWrite [Lit "---"]])
                     <$> tickets))
  end.

(** ** Manager: ticket management *)

Definition commit_ticket (db : DB) (t' : ServiceTicket) : DB :=
  mkDB (users db) (attendance db)
       (replace_row ticket_id t' (service_tickets db)).

(** [ticket.assigned_to = ...; ticket.status = "In Progress"]; the commit
    refreshes [updated_at] ([onupdate=datetime.utcnow]). *)
Definition set_assigned (t : ServiceTicket) (staff_id : Z) (now : datetime)
    : ServiceTicket :=
  {| ticket_id := ticket_id t;
     client_id := client_id t;
     service_type := service_type t;
     description := description t;
     assigned_to := Some staff_id;
     status := "In Progress";
     created_at := created_at t;
     updated_at := now |}.

(** [ticket.status = "Completed"], with the same refresh. *)
Definition set_completed (t : ServiceTicket) (now : datetime) : ServiceTicket :=
  {| ticket_id := ticket_id t;
     client_id := client_id t;
     service_type := service_type t;
     description := description t;
     assigned_to := assigned_to t;
     status := "Completed";
     created_at := created_at t;
     updated_at := now |}.

Definition staff_label (s : User) : string :=
  full_name s +:+ " (ID: " +:+ pretty (user_id s) +:+ ")".

Definition manager_ticket_lines (ticket : ServiceTicket) : list event :=
  [StWrite [Lit "**Ticket ID:** "; FInt (ticket_id ticket)];
   StWrite [Lit "**Client ID:** "; FInt (client_id ticket)];
   StWrite [Lit "**Service Type:** "; FStr (service_type ticket)];
   StWrite [Lit "**Description:** "; FStr (description ticket)];
   StWrite [Lit "**Status:** "; FStr (status ticket)]].

Definition select_key (tid : Z) : string := "ticket_" +:+ pretty tid.
Definition assign_key (tid : Z) : string := "assign_" +:+ pretty tid.
Definition complete_key (tid : Z) : string := "complete_" +:+ pretty tid.

(** The [for ticket in tickets] loop; the rerun after a commit ends the
    run, so the tickets after an assigned one are not rendered. *)
Fixpoint manager_loop (inp : Inputs) (db : DB) (tickets : list ServiceTicket)
    : DB * list event :=
  match tickets with
  | [] => (db, [])
  | ticket :: rest =>
      if decide (status ticket = "Pending") then
        let staff_list := filter (λ u, role u = "staff") (users db) in
        let staff_options :=
          dict_of ((λ s, (staff_label s, user_id s)) <$> staff_list) in
        let selected_staff :=
          st_selectbox inp (select_key (ticket_id ticket))
                       (dict_keys staff_options) in
        let shown :=
          manager_ticket_lines ticket ++
          [StSelectbox (select_key (ticket_id ticket)) (dict_keys staff_options);
           StButton (assign_key (ticket_id ticket))] in
        if button_clicked inp (assign_key (ticket_id ticket)) then
          match selected_staff ≫= (λ k, dict_get k staff_options) with
          | None => (db, shown ++ [Raised "KeyError"])
          | Some staff_id =>
              (commit_ticket db (set_assigned ticket staff_id (utcnow inp)),
               shown ++
               [StSuccess [Lit "Ticket "; FInt (ticket_id ticket);
                           Lit " assigned to "; FStr (default "" selected_staff);
                           Lit "!"];
                StRerun])
          end
        else
          let '(db', out) := manager_loop inp db rest in
          (db', shown ++ StWrite [Lit "---"] :: out)
      else
        let '(db', out) := manager_loop inp db rest in
        (db', manager_ticket_lines ticket ++ StWrite [Lit "---"] :: out)
  end.

Definition manager_service_tickets (inp : Inputs) (db : DB) : DB * list event :=
  let tickets := service_tickets db in
  match tickets with
  | [] => (db, [StHeader "Manage Service Tickets";
                StWrite [Lit "No service tickets available."]])
  | _ =>
      let '(db', out) := manager_loop inp db tickets in
      (db', StHeader "Manage Service Tickets" :: out)
  end.

(** ** Staff: assigned tickets *)

Fixpoint staff_loop (inp : Inputs) (db : DB) (tickets : list ServiceTicket)
    : DB * list event :=
  match tickets with
  | [] => (db, [])
  | ticket :: rest =>
      if decide (status ticket ≠ "Completed") then
        let shown :=
          client_ticket_lines ticket ++ [StButton (complete_key (ticket_id ticket))] in
        if button_clicked inp (complete_key (ticket_id ticket)) then
          (commit_ticket db (set_completed ticket (utcnow inp)),
           shown ++
           [StSuccess [Lit "Ticket "; FInt (ticket_id ticket);
                       Lit " marked as Completed!"];
            StRerun])
        else
          let '(db', out) := staff_loop inp db rest in
          (db', shown ++ StWrite [Lit "---"] :: out)
      else
        let '(db', out) := staff_loop inp db rest in
        (db', client_ticket_lines ticket ++ StWrite [Lit "---"] :: out)
  end.

Definition staff_assigned_tickets (session_user_id : Z) (inp : Inputs) (db : DB)
    : DB * list event :=
  let tickets :=
    filter (λ t, assigned_to t = Some session_user_id) (service_tickets db) in
  match tickets with
  | [] => (db, [StHeader "My Assigned Tickets";
                StWrite [Lit "No tickets assigned to you."]])
  | _ =>
      let '(db', out) := staff_loop inp db tickets in
      (db', StHeader "My Assigned Tickets" :: out)
  end.

(** ** Admin/manager: attendance report *)

(** [db.query(Attendance).filter(Attendance.date.between(start, end)).all()]:
    [BETWEEN] is inclusive at both ends; the query has no [ORDER BY]. *)
Definition query_attendance_between (db : DB) (start_date end_date : date)
    : list Attendance :=
  filter (λ a, start_date ≤ a_date a ∧ a_date a ≤ end_date) (attendance db).

Definition report_line (rec : Attendance) : event :=
  StWrite [Lit "**User ID:** "; FInt (a_user_id rec);
           Lit " | **Date:** "; FDate (a_date rec);
           Lit " | **Check In:** "; FTime (check_in rec);
           Lit " | **Check Out:** "; FTime (check_out rec)].

Definition attendance_report (inp : Inputs) (db : DB) : DB * list event :=
  let start_date := st_date_input inp "Start Date" (today inp) in
  let end_date := st_date_input inp "End Date" (today inp) in
  let shown :=
    [StHeader "Attendance Report"; StDateInput "Start Date";
     StDateInput "End Date"; StButton "Generate Report"] in
  if button_clicked inp "Generate Report" then
    let records := query_attendance_between db start_date end_date in
    match records with
    | [] => (db, shown ++
                 [StWrite [Lit "No attendance records found for the selected period."]])
    | _ => (db, shown ++ (report_line <$> records))
    end
  else (db, shown).

(** ** Sequences of operations *)

(** One operation is one run of a page by a logged-in user, or a direct
    call of [create_user] (the seeding script at the end of the file). *)
Inductive op :=
  | CreateUser (inp : Inputs) (user_data : UserData)
  | RegisterUser (inp : Inputs)
  | StaffAttendance (session_user_id : Z) (inp : Inputs)
  | ClientServiceRequest (session_user_id : Z) (inp : Inputs)
  | ClientViewTickets (session_user_id : Z)
  | ManagerServiceTickets (inp : Inputs)
  | StaffAssignedTickets (session_user_id : Z) (inp : Inputs)
  | AttendanceReport (inp : Inputs).

Definition step (o : op) (db : DB) : DB :=
  match o with
  | CreateUser inp user_data => (create_user inp user_data db).1
  | RegisterUser inp => (register_user inp db).1
  | StaffAttendance u inp => (staff_attendance u inp db).1
  | ClientServiceRequest u inp => (client_service_request u inp db).1
  | ClientViewTickets u => (client_view_tickets u db).1
  | ManagerServiceTickets inp => (manager_service_tickets inp db).1
  | StaffAssignedTickets u inp => (staff_assigned_tickets u inp db).1
  | AttendanceReport inp => (attendance_report inp db).1
  end.

(** The database after running the operations in order, first one first. *)
Definition run (ops : list op) (db : DB) : DB := foldl (λ d o, step o d) db ops.

Inductive reachable : DB → Prop :=
  | reach_empty : reachable empty_db
  | reach_step o db : reachable db → reachable (step o db).

(** ** Session state, login, dashboard and the main script *)

(** [st.session_state.user], the dictionary stored at login. *)
Record SessionUser := mkSessionUser {
  su_user_id : Z;
  su_full_name : string;
  su_role : string
}.

(** [st.session_state] of one browser session. *)
Record SessionState := mkSessionState {
  logged_in : bool;
  user : option SessionUser
}.

(** The session state the script initialises when the keys are absent. *)
Definition initial_session : SessionState := mkSessionState false None.

(** The inputs of a run of the whole script: those of the pages and the
    state of the sidebar's radio group. *)
Record AppInputs := mkAppInputs {
  widgets : Inputs;
  radio_value : string → option string
}.

(** What the whole script renders: the title and the sidebar, and what
    the pages render. *)
Inductive app_event :=
  | StTitle (s : string)
  | SidebarTitle (s : string)
  | SidebarRadio (label : string) (options : list string)
  | SidebarButton (label : string)
  | Page (e : event).

(** [st.sidebar.radio]: the chosen option, the first one by default. *)
Definition st_radio (ai : AppInputs) (label : string) (options : list string)
    : option string :=
  match radio_value ai label with
  | Some c => if decide (c ∈ options) then Some c else head options
  | None => head options
  end.

(** A page has ended the run when the last thing it did was to ask for a
    rerun or to raise. *)
Definition ends_run (out : list event) : bool :=
  match last out with
  | Some StRerun | Some (Raised _) => true
  | _ => false
  end.

Definition logout (ss : SessionState) : SessionState * list app_event :=
  (mkSessionState false None, [Page StRerun]).

Definition login_page (inp : Inputs) (ss : SessionState) (db : DB)
    : SessionState * list app_event :=
  let email := text_value inp "Email" in
  let password := text_value inp "Password" in
  let shown :=
    [StTitle "Login"; Page (StTextInput "Email"); Page (StTextInput "Password");
     Page (StButton "Login")] in
  if button_clicked inp "Login" then
    match authenticate_user db email password with
    | Some u =>
        (mkSessionState true
           (Some {| su_user_id := user_id u;
                    su_full_name := full_name u;
                    su_role := role u |}),
         shown ++ [Page (StSuccess [Lit "Logged in successfully!"]); Page StRerun])
    | None => (ss, shown ++ [Page (StError "Invalid email or password")])
    end
  else (ss, shown).

(** The role's menu and the page chosen in it. *)
Definition dashboard_menu (ai : AppInputs) (su : SessionUser) (db : DB)
    : list app_event * (DB * list event) :=
  let inp := widgets ai in
  let role := su_role su in
  let uid := su_user_id su in
  if decide (role = "admin") then
    let options := ["Dashboard"; "Register User"; "Attendance Report";
                    "Manage Service Tickets"] in
    let menu := st_radio ai "Select an option" options in
    ([SidebarRadio "Select an option" options],
     if decide (menu = Some "Dashboard") then
       (db, [StHeader "Admin Dashboard";
             StWrite [Lit "Overview of system metrics and recent activity..."]])
     else if decide (menu = Some "Register User") then register_user inp db
     else if decide (menu = Some "Attendance Report") then attendance_report inp db
     else if decide (menu = Some "Manage Service Tickets") then
       manager_service_tickets inp db
     else (db, []))
  else if decide (role = "manager") then
    let options := ["Dashboard"; "Attendance Report"; "Manage Service Tickets"] in
    let menu := st_radio ai "Select an option" options in
    ([SidebarRadio "Select an option" options],
     if decide (menu = Some "Dashboard") then
       (db, [StHeader "Manager Dashboard";
             StWrite [Lit "Overview of operations..."]])
     else if decide (menu = Some "Attendance Report") then attendance_report inp db
     else if decide (menu = Some "Manage Service Tickets") then
       manager_service_tickets inp db
     else (db, []))
  else if decide (role = "staff") then
    let options := ["Dashboard"; "Mark Attendance"; "My Assigned Tickets"] in
    let menu := st_radio ai "Select an option" options in
    ([SidebarRadio "Select an option" options],
     if decide (menu = Some "Dashboard") then
       (db, [StHeader "Staff Dashboard";
             StWrite [Lit "Overview of your tasks and attendance..."]])
     else if decide (menu = Some "Mark Attendance") then staff_attendance uid inp db
     else if decide (menu = Some "My Assigned Tickets") then
       staff_assigned_tickets uid inp db
     else (db, []))
  else if decide (role = "client") then
    let options := ["Dashboard"; "Raise Service Request"; "My Service Tickets"] in
    let menu := st_radio ai "Select an option" options in
    ([SidebarRadio "Select an option" options],
     if decide (menu = Some "Dashboard") then
       (db, [StHeader "Client Dashboard";
             StWrite [Lit "Overview of your service requests..."]])
     else if decide (menu = Some "Raise Service Request") then
       client_service_request uid inp db
     else if decide (menu = Some "My Service Tickets") then
       client_view_tickets uid db
     else (db, []))
  else ([], (db, [])).

(** [dashboard]: reading the role of a session without a user raises
    TypeError; the Logout button comes last, if the page has not ended the
    run. *)
Definition dashboard (ai : AppInputs) (ss : SessionState) (db : DB)
    : DB * list app_event :=
  match user ss with
  | None => (db, [SidebarTitle "Menu"; Page (Raised "TypeError")])
  | Some su =>
      let '(radio, (db', out)) := dashboard_menu ai su db in
      (db',
       SidebarTitle "Menu" :: radio ++ (Page <$> out) ++
       if ends_run out then [] else [SidebarButton "Logout"])
  end.

(** One run of the script.  A click on the Logout button, which only a
    logged-in session has on its page, runs its [on_click] callback before
    the script body. *)
Definition main (ai : AppInputs) (ss : SessionState) (db : DB)
    : SessionState * DB * list app_event :=
  let inp := widgets ai in
  let '(ss1, called) :=
    if logged_in ss && button_clicked inp "Logout" then logout ss
    else (ss, []) in
  if negb (logged_in ss1) then
    let '(ss2, out) := login_page inp ss1 db in (ss2, db, called ++ out)
  else
    let '(db', out) := dashboard ai ss1 db in (ss1, db', called ++ out).

(** ** The application: several sessions on one database *)

Record App := mkApp {
  sessions : list SessionState;
  database : DB
}.

(** A browser opens the application, session [i] runs the script, or the
    seeding script at the end of the file calls [create_user]. *)
Inductive app_op :=
  | NewSession
  | RunScript (i : nat) (ai : AppInputs)
  | SeedUser (inp : Inputs) (user_data : UserData).

Definition app_step (o : app_op) (a : App) : App :=
  match o with
  | NewSession => mkApp (sessions a ++ [initial_session]) (database a)
  | RunScript i ai =>
      match sessions a !! i with
      | Some ss =>
          let '(ss', db', _) := main ai ss (database a) in
          mkApp (<[i := ss']> (sessions a)) db'
      | None => a
      end
  | SeedUser inp user_data =>
      mkApp (sessions a) (create_user inp user_data (database a)).1
  end.

Definition initial_app : App := mkApp [] empty_db.

Definition app_run (ops : list app_op) : App :=
  foldl (λ a o, app_step o a) initial_app ops.

(** ** Observations used in the statements *)

(** The row of a ticket, by primary key. *)
Definition get_ticket (db : DB) (tid : Z) : option ServiceTicket :=
  head (filter (λ t, ticket_id t = tid) (service_tickets db)).

(** The attendance records of a user on a day. *)
Definition records_for (db : DB) (uid : Z) (d : date) : list Attendance :=
  filter (λ a, a_user_id a = uid ∧ a_date a = d) (attendance db).

Definition attendance_key (a : Attendance) : Z * date := (a_user_id a, a_date a).

(** [assigned_to] is set exactly when the ticket is in progress or completed. *)
Definition ticket_inv (t : ServiceTicket) : Prop :=
  assigned_to t ≠ None ↔ status t = "In Progress" ∨ status t = "Completed".

Global Instance ticket_inv_dec t : Decision (ticket_inv t).
Proof. unfold ticket_inv. apply _. Defined.

(** The status workflow, in order. *)
Definition WORKFLOW : list string := ["Pending"; "In Progress"; "Completed"].

(** One observation of a ticket's status after another: unchanged, or one
    edge of the workflow. *)
Definition advance (s s' : string) : Prop :=
  s' = s ∨ (s = "Pending" ∧ s' = "In Progress")
         ∨ (s = "In Progress" ∧ s' = "Completed").

(** The databases seen while running [ops] from [db], the start included. *)
Fixpoint states (ops : list op) (db : DB) : list DB :=
  db :: match ops with
        | [] => []
        | o :: ops' => states ops' (step o db)
        end.

(** The statuses of ticket [tid] observed over a run, from its creation. *)
Definition observed_statuses (tid : Z) (ops : list op) (db : DB) : list string :=
  omap (λ d, status <$> get_ticket d tid) (states ops db).

(** A sequence with its repetitions of the same value in a row collapsed. *)
Fixpoint squash (l : list string) : list string :=
  match l with
  | [] => []
  | s :: l' =>
      match l' with
      | s' :: _ => if decide (s = s') then squash l' else s :: squash l'
      | [] => [s]
      end
  end.

(** Only the button [k] is pressed in this run. *)
Definition only_clicked (inp : Inputs) (k : string) : Prop :=
  ∀ k', button_clicked inp k' = bool_decide (k' = k).

(** ** Changes of a table and well-formed tables *)

(** The ways a run can change the ticket table. *)
Inductive ticket_change (db : DB) : DB → Prop :=
  | tc_same db' :
      service_tickets db' = service_tickets db → ticket_change db db'
  | tc_raise uid st desc now :
      ticket_change db
        (add_ticket db
           (mkServiceTicket (next_id (ticket_id <$> service_tickets db))
                            uid st desc None "Pending" now now))
  | tc_assign t sid now :
      t ∈ service_tickets db → status t = "Pending" →
      ticket_change db (commit_ticket db (set_assigned t sid now))
  | tc_complete t u now :
      t ∈ service_tickets db → assigned_to t = Some u →
      status t ≠ "Completed" →
      ticket_change db (commit_ticket db (set_completed t now)).

(** The ways a run can change the attendance table. *)
Inductive attendance_change (db : DB) : DB → Prop :=
  | ac_same db' : attendance db' = attendance db → attendance_change db db'
  | ac_check_in uid d t :
      records_for db uid d = [] →
      attendance_change db
        (add_attendance db
           (mkAttendance (next_id (attendance_id <$> attendance db))
                         uid d (Some t) None))
  | ac_check_out a t :
      a ∈ attendance db → check_out a = None →
      attendance_change db (commit_attendance db (set_check_out a t)).

(** Primary keys are unique and no user has two records on one day. *)
Definition attendance_wf (db : DB) : Prop :=
  NoDup (attendance_id <$> attendance db) ∧
  NoDup (attendance_key <$> attendance db).

(** Primary keys are unique, every ticket satisfies [ticket_inv] and its
    status is one of the workflow. *)
Definition tickets_wf (db : DB) : Prop :=
  NoDup (ticket_id <$> service_tickets db) ∧
  Forall ticket_inv (service_tickets db) ∧
  Forall (λ t, status t ∈ WORKFLOW) (service_tickets db).

(** Each status of the list follows the one before it, [s] coming first. *)
Fixpoint chain (s : string) (l : list string) : Prop :=
  match l with
  | [] => True
  | s' :: l' => advance s s' ∧ chain s' l'
  end.

(** The part of the workflow from a status on. *)
Definition workflow_from (s : string) : list string :=
  if decide (s = "Pending") then WORKFLOW
  else if decide (s = "In Progress") then ["In Progress"; "Completed"]
  else ["Completed"].

(** The order the specification asks of a report: by date, then by user. *)
Definition date_then_user (a b : Attendance) : Prop :=
  a_date a < a_date b ∨ (a_date a = a_date b ∧ a_user_id a ≤ a_user_id b).

Global Instance date_then_user_dec a b : Decision (date_then_user a b).
Proof. unfold date_then_user. apply _. Defined.

(** Splits a membership in a rendered list into its cases and drops the
    ones that name another kind of event. *)
Ltac elem_cases H :=
  repeat first
    [ apply elem_of_nil in H; destruct H
    | apply elem_of_cons in H as [H|H]; [try discriminate H|]
    | apply elem_of_app in H as [H|H] ].

(** ** A worked scenario *)

(** The inputs of a run on day [d] at time [t] in which the widgets hold
    [texts] and [choices] and the button [pressed] is clicked. *)
Definition run_inputs (d : date) (t : time) (texts choices : list (string * string))
    (pressed : string) : Inputs :=
  {| today := d;
     now_time := t;
     utcnow := d * 86400000000 + t;
     gensalt := "$2b$12$saltsaltsaltsaltsaltsa";
     text_value := λ k, default "" (dict_get k texts);
     selectbox_value := λ k, dict_get k choices;
     date_value := λ _, None;
     number_value := λ _, None;
     button_clicked := λ k, bool_decide (k = pressed) |}.

Definition day1 : date := 739000.
Definition nine_am : time := 32400000000.
Definition five_pm : time := 61200000000.

Definition person (name mail aadhar role : string) : UserData :=
  {| ud_full_name := name; ud_phone_number := "9999999999"; ud_email := mail;
     ud_aadhar_number := aadhar; ud_service_domain := None; ud_role := role;
     ud_level_of_employment := None; ud_date_of_joining := None;
     ud_salary := None; ud_certifications := None; ud_password := "secret" |}.

(** The users of the scenario: staff S (user 1) and S2 (user 2) and client
    C (user 3). *)
Definition seed_users : list op :=
  [CreateUser (run_inputs day1 0 [] [] "") (person "S" "s@erp" "1111" "staff");
   CreateUser (run_inputs day1 0 [] [] "") (person "S2" "s2@erp" "2222" "staff");
   CreateUser (run_inputs day1 0 [] [] "") (person "C" "c@erp" "3333" "client")].

Definition seeded_db : DB := run seed_users empty_db.

(** S checks in at nine. *)
Definition check_in_S : op :=
  StaffAttendance 1 (run_inputs day1 nine_am [] [] "Check In").

Definition checked_in_db : DB := run (seed_users ++ [check_in_S]) empty_db.

(** S2 checks in before S on the same day. *)
Definition two_check_ins_db : DB :=
  run (seed_users ++
       [StaffAttendance 2 (run_inputs day1 nine_am [] [] "Check In");
        StaffAttendance 1 (run_inputs day1 (nine_am + 1) [] [] "Check In")])
      empty_db.

(** C raises a Plumber ticket, a manager assigns it to S, and a staff user
    presses its complete button. *)
Definition raise_plumber : op :=
  ClientServiceRequest 3
    (run_inputs day1 nine_am [("Description", "Leaking tap")]
                [("Service Type", "Plumber")] "Submit Request").

Definition assign_to_S : op :=
  ManagerServiceTickets
    (run_inputs day1 (nine_am + 1) [] [("ticket_1", "S (ID: 1)")] "assign_1").

Definition complete_by (u : Z) : op :=
  StaffAssignedTickets u (run_inputs day1 five_pm [] [] "complete_1").

Definition assigned_db : DB :=
  run (seed_users ++ [raise_plumber; assign_to_S]) empty_db.

(** ** The users table *)

(** The row [create_user] builds from [user_data]. *)
Definition new_user_row (inp : Inputs) (user_data : UserData) (db : DB) : User :=
  {| user_id := next_id (user_id <$> users db);
     full_name := ud_full_name user_data;
     phone_number := ud_phone_number user_data;
     email := ud_email user_data;
     aadhar_number := ud_aadhar_number user_data;
     service_domain := default "" (ud_service_domain user_data);
     role := ud_role user_data;
     level_of_employment := default "" (ud_level_of_employment user_data);
     date_of_joining := default (today inp) (ud_date_of_joining user_data);
     salary := default 0%Q (ud_salary user_data);
     certifications := default "" (ud_certifications user_data);
     password_hash := hash_password inp (ud_password user_data) |}.

(** The [user_data] dictionary that [register_user] builds from the form. *)
Definition form_user_data (inp : Inputs) (role : string) : UserData :=
  {| ud_full_name := text_value inp "Full Name";
     ud_phone_number := text_value inp "Phone Number";
     ud_email := text_value inp "Email";
     ud_aadhar_number := text_value inp "Aadhar Card Number";
     ud_service_domain := Some (text_value inp "Service Domain");
     ud_role := role;
     ud_level_of_employment := Some (text_value inp "Level of Employment");
     ud_date_of_joining :=
       Some (st_date_input inp "Date of Joining" (today inp));
     ud_salary := Some (st_number_input inp "Salary" 0%Q);
     ud_certifications := Some (text_value inp "Certifications");
     ud_password := text_value inp "Password" |}.

(** Primary keys, e-mails and Aadhar numbers are unique. *)
Definition users_wf (db : DB) : Prop :=
  NoDup (user_id <$> users db) ∧
  NoDup (email <$> users db) ∧
  NoDup (aadhar_number <$> users db).

(** ** The staff offered for assignment *)

(** [staff_list] and the [staff_options] dictionary that the
    ticket-management page builds for each Pending ticket. *)
Definition staff_list (db : DB) : list User :=
  filter (λ u, role u = "staff") (users db).

Definition staff_options (db : DB) : list (string * Z) :=
  dict_of ((λ s, (staff_label s, user_id s)) <$> staff_list db).



(** What the ticket-management page looks up for a ticket when its assign
    button is pressed: [staff_options[selected_staff]]. *)
Definition selected_staff_id (inp : Inputs) (db : DB) (tid : Z) : option Z :=
  st_selectbox inp (select_key tid) (dict_keys (staff_options db))
    ≫= (λ k, dict_get k (staff_options db)).

(** ** Which page a role can reach *)

(** What the dashboard of a session user does to the database and renders
    as a page: nothing from a page function, or the run of one of the page
    functions its role has in the menu. *)
Inductive menu_outcome (inp : Inputs) (su : SessionUser) (db : DB)
    : DB * list event → Prop :=
  | mo_none out : menu_outcome inp su db (db, out)
  | mo_register :
      su_role su = "admin" → menu_outcome inp su db (register_user inp db)
  | mo_report :
      su_role su = "admin" ∨ su_role su = "manager" →
      menu_outcome inp su db (attendance_report inp db)
  | mo_manage :
      su_role su = "admin" ∨ su_role su = "manager" →
      menu_outcome inp su db (manager_service_tickets inp db)
  | mo_attendance :
      su_role su = "staff" →
      menu_outcome inp su db (staff_attendance (su_user_id su) inp db)
  | mo_assigned :
      su_role su = "staff" →
      menu_outcome inp su db (staff_assigned_tickets (su_user_id su) inp db)
  | mo_raise :
      su_role su = "client" →
      menu_outcome inp su db (client_service_request (su_user_id su) inp db)
  | mo_view :
      su_role su = "client" →
      menu_outcome inp su db (client_view_tickets (su_user_id su) db).

(** The session user of a stored user. *)
Definition session_of (u : User) : SessionState :=
  mkSessionState true
    (Some {| su_user_id := user_id u; su_full_name := full_name u;
             su_role := role u |}).

(** A session is either logged out without a user, or logged in as a
    stored user with that user's name and role. *)
Definition session_ok (db : DB) (ss : SessionState) : Prop :=
  (logged_in ss = false ∧ user ss = None) ∨
  (∃ u, u ∈ users db ∧ ss = session_of u).

(** Every attendance record belongs to a stored staff user and every
    ticket to a stored client. *)
Definition owners_ok (db : DB) : Prop :=
  (∀ a, a ∈ attendance db →
        ∃ u, u ∈ users db ∧ user_id u = a_user_id a ∧ role u = "staff") ∧
  (∀ t, t ∈ service_tickets db →
        ∃ u, u ∈ users db ∧ user_id u = client_id t ∧ role u = "client").

(** The inputs of a run of the whole script with [menu] chosen in the
    sidebar. *)
Definition app_inputs (inp : Inputs) (menu : string) : AppInputs :=
  mkAppInputs inp (λ _, Some menu).

(** The three users are seeded, a browser opens the application, C logs
    in and raises a Plumber ticket. *)
Definition client_session : list app_op :=
  [SeedUser (run_inputs day1 0 [] [] "") (person "S" "s@erp" "1111" "staff");
   SeedUser (run_inputs day1 0 [] [] "") (person "S2" "s2@erp" "2222" "staff");
   SeedUser (run_inputs day1 0 [] [] "") (person "C" "c@erp" "3333" "client");
   NewSession;
   RunScript 0
     (app_inputs (run_inputs day1 nine_am
                    [("Email", "c@erp"); ("Password", "secret")] [] "Login")
                 "Dashboard");
   RunScript 0
     (app_inputs (run_inputs day1 nine_am [("Description", "Leaking tap")]
                    [("Service Type", "Plumber")] "Submit Request")
                 "Raise Service Request")].

(** A client registers and raises a ticket while there is no staff. *)
Definition no_staff_db : DB :=
  run [CreateUser (run_inputs day1 0 [] [] "") (person "C" "c@erp" "3333" "client");
       ClientServiceRequest 1
         (run_inputs day1 nine_am [("Description", "Leaking tap")]
                     [("Service Type", "Plumber")] "Submit Request")]
      empty_db.


(** * Properties *)

(** ** Keys and in-place updates *)

Lemma next_id_above (ids : list Z) (x : Z) : x ∈ ids → x < next_id ids.
Proof.
  unfold next_id. induction ids as [|y ids IH]; intros Hx.
  - by apply elem_of_nil in Hx.
  - apply elem_of_cons in Hx as [->|Hx]; simpl; [lia|].
    specialize (IH Hx). lia.
Qed.

Lemma next_id_fresh (ids : list Z) : next_id ids ∉ ids.
Proof. intros H%next_id_above. lia. Qed.

Lemma fmap_ext_elem {A B} (f g : A → B) (l : list A) :
  (∀ x, x ∈ l → f x = g x) → f <$> l = g <$> l.
Proof.
  intros H. apply list_fmap_ext. intros i x Hi. apply H.
  by eapply list_elem_of_lookup_2.
Qed.

Lemma NoDup_key_inj {A} (k : A → Z) (l : list A) (x y : A) :
  NoDup (k <$> l) → x ∈ l → y ∈ l → k x = k y → x = y.
Proof.
  induction l as [|a l IH]; intros Hnd Hx Hy Hk.
  - by apply elem_of_nil in Hx.
  - rewrite fmap_cons in Hnd. apply NoDup_cons in Hnd as [Ha Hnd].
    apply elem_of_cons in Hx as [->|Hx]; apply elem_of_cons in Hy as [->|Hy];
      auto.
    + destruct Ha. rewrite Hk. by apply list_elem_of_fmap_2.
    + destruct Ha. rewrite <- Hk. by apply list_elem_of_fmap_2.
Qed.

Section replace.
Context {A B : Type} (k : A → Z).

Lemma replace_row_elem x' l y :
  y ∈ replace_row k x' l → y = x' ∨ y ∈ l.
Proof.
  unfold replace_row. intros (a & -> & Ha)%list_elem_of_fmap.
  case_decide; auto.
Qed.

Lemma replace_row_Forall (P : A → Prop) x' l :
  Forall P l → P x' → Forall P (replace_row k x' l).
Proof.
  intros Hl Hx. apply Forall_forall. intros y [->|Hy]%replace_row_elem; [done|].
  by eapply Forall_forall in Hl.
Qed.

Lemma replace_row_proj (f : A → B) x x' l :
  NoDup (k <$> l) → x ∈ l → k x' = k x → f x' = f x →
  f <$> replace_row k x' l = f <$> l.
Proof.
  intros Hnd Hx Hk Hf. unfold replace_row. rewrite <- list_fmap_compose.
  apply fmap_ext_elem. intros a Ha. simpl. case_decide as Hka; [|done].
  rewrite Hf. f_equal.
  eapply (NoDup_key_inj k); eauto. congruence.
Qed.

Lemma replace_row_keys x' l : k <$> replace_row k x' l = k <$> l.
Proof.
  unfold replace_row. rewrite <- list_fmap_compose.
  apply list_fmap_ext. intros _ a _. simpl. by case_decide.
Qed.

End replace.

(** ** What one run can do to each table *)

Lemma create_user_tables inp ud db :
  attendance (create_user inp ud db).1 = attendance db ∧
  service_tickets (create_user inp ud db).1 = service_tickets db.
Proof. unfold create_user. by case_decide. Qed.

Lemma register_user_tables inp db :
  attendance (register_user inp db).1 = attendance db ∧
  service_tickets (register_user inp db).1 = service_tickets db.
Proof.
  unfold register_user.
  destruct (button_clicked inp "Register"); [|done].
  case_decide; [done|].
  destruct (get_user_by_email _ _); [done|].
  destruct (st_selectbox _ _ _) as [r|]; [|done].
  match goal with |- context [create_user ?i ?u ?d] =>
    pose proof (create_user_tables i u d) as Hcu;
    destruct (create_user i u d) as [db' [?|?]] end; exact Hcu.
Qed.

Lemma manager_loop_db inp db ts :
  (manager_loop inp db ts).1 = db ∨
  ∃ t sid, t ∈ ts ∧ status t = "Pending" ∧
    button_clicked inp (assign_key (ticket_id t)) = true ∧
    (manager_loop inp db ts).1
      = commit_ticket db (set_assigned t sid (utcnow inp)).
Proof.
  induction ts as [|t ts IH]; simpl; [by left|].
  assert ((manager_loop inp db ts).1 = db ∨
          ∃ t' sid, t' ∈ t :: ts ∧ status t' = "Pending" ∧
            button_clicked inp (assign_key (ticket_id t')) = true ∧
            (manager_loop inp db ts).1
              = commit_ticket db (set_assigned t' sid (utcnow inp))) as IH'.
  { destruct IH as [?|(t' & sid & ? & ? & ? & ?)]; [by left|right].
    exists t', sid. split_and!; try done. by apply list_elem_of_further. }
  clear IH. case_decide as Hs.
  - destruct (button_clicked inp (assign_key (ticket_id t))) eqn:Hb.
    + destruct (_ ≫= _) as [sid|]; simpl; [right|by left].
      exists t, sid. split_and!; try done. apply list_elem_of_here.
    + by destruct (manager_loop inp db ts).
  - by destruct (manager_loop inp db ts).
Qed.

Lemma staff_loop_db inp db ts :
  (staff_loop inp db ts).1 = db ∨
  ∃ t, t ∈ ts ∧ status t ≠ "Completed" ∧
    button_clicked inp (complete_key (ticket_id t)) = true ∧
    (staff_loop inp db ts).1 = commit_ticket db (set_completed t (utcnow inp)).
Proof.
  induction ts as [|t ts IH]; simpl; [by left|].
  assert ((staff_loop inp db ts).1 = db ∨
          ∃ t', t' ∈ t :: ts ∧ status t' ≠ "Completed" ∧
            button_clicked inp (complete_key (ticket_id t')) = true ∧
            (staff_loop inp db ts).1
              = commit_ticket db (set_completed t' (utcnow inp))) as IH'.
  { destruct IH as [?|(t' & ? & ? & ? & ?)]; [by left|right].
    exists t'. split_and!; try done. by apply list_elem_of_further. }
  clear IH. case_decide as Hs.
  - destruct (button_clicked inp (complete_key (ticket_id t))) eqn:Hb.
    + simpl. right. exists t. split_and!; try done. apply list_elem_of_here.
    + by destruct (staff_loop inp db ts).
  - by destruct (staff_loop inp db ts).
Qed.

Lemma manager_service_tickets_db inp db :
  (manager_service_tickets inp db).1 = db ∨
  ∃ t sid, t ∈ service_tickets db ∧ status t = "Pending" ∧
    button_clicked inp (assign_key (ticket_id t)) = true ∧
    (manager_service_tickets inp db).1
      = commit_ticket db (set_assigned t sid (utcnow inp)).
Proof.
  unfold manager_service_tickets.
  destruct (service_tickets db) as [|t0 ts] eqn:Hts; [by left|].
  rewrite <- Hts. pose proof (manager_loop_db inp db (service_tickets db)) as H.
  by destruct (manager_loop inp db (service_tickets db)).
Qed.

Lemma staff_assigned_tickets_db u inp db :
  (staff_assigned_tickets u inp db).1 = db ∨
  ∃ t, t ∈ service_tickets db ∧ assigned_to t = Some u ∧
    status t ≠ "Completed" ∧
    button_clicked inp (complete_key (ticket_id t)) = true ∧
    (staff_assigned_tickets u inp db).1
      = commit_ticket db (set_completed t (utcnow inp)).
Proof.
  unfold staff_assigned_tickets.
  destruct (filter _ (service_tickets db)) as [|t0 ts] eqn:Hts; [by left|].
  rewrite <- Hts.
  pose proof (staff_loop_db inp db
    (filter (λ t, assigned_to t = Some u) (service_tickets db))) as H.
  destruct (staff_loop inp db _) as [db' out]. simpl in *.
  destruct H as [?|(t & [Ha Ht]%list_elem_of_filter & ? & ? & ?)]; [by left|right].
  by exists t.
Qed.

Lemma step_ticket_change o db : ticket_change db (step o db).
Proof.
  destruct o as [inp ud|inp|u inp|u inp|u|inp|u inp|inp]; simpl.
  - apply tc_same, create_user_tables.
  - apply tc_same, register_user_tables.
  - apply tc_same. unfold staff_attendance.
    repeat case_match; done.
  - unfold client_service_request.
    destruct (button_clicked inp "Submit Request"); [|by apply tc_same].
    destruct (st_selectbox _ _ _); [|by apply tc_same]. apply tc_raise.
  - apply tc_same. unfold client_view_tickets. by case_match.
  - destruct (manager_service_tickets_db inp db)
      as [->|(t & sid & ? & ? & ? & ->)]; [by apply tc_same|].
    by apply tc_assign.
  - destruct (staff_assigned_tickets_db u inp db)
      as [->|(t & ? & ? & ? & ? & ->)]; [by apply tc_same|].
    by eapply tc_complete.
  - apply tc_same. unfold attendance_report. by repeat case_match.
Qed.

Lemma query_attendance_first_records db u d :
  query_attendance_first db u d = head (records_for db u d).
Proof. done. Qed.

Lemma step_attendance_change o db : attendance_change db (step o db).
Proof.
  destruct o as [inp ud|inp|u inp|u inp|u|inp|u inp|inp]; simpl.
  - apply ac_same, create_user_tables.
  - apply ac_same, register_user_tables.
  - unfold staff_attendance. rewrite query_attendance_first_records.
    destruct (records_for db u (today inp)) as [|a l] eqn:Hr; simpl.
    + destruct (button_clicked inp "Check In"); [|by apply ac_same].
      by apply ac_check_in.
    + destruct (check_out a) eqn:Hco; [by apply ac_same|].
      destruct (button_clicked inp "Check Out"); [|by apply ac_same].
      apply ac_check_out; [|done].
      assert (a ∈ records_for db u (today inp)) as Ha
        by (rewrite Hr; apply list_elem_of_here).
      by apply list_elem_of_filter in Ha as [_ Ha].
  - apply ac_same. unfold client_service_request. by repeat case_match.
  - apply ac_same. unfold client_view_tickets. by case_match.
  - apply ac_same.
    by destruct (manager_service_tickets_db inp db)
      as [->|(t & sid & ? & ? & ? & ->)].
  - apply ac_same.
    by destruct (staff_assigned_tickets_db u inp db)
      as [->|(t & ? & ? & ? & ? & ->)].
  - apply ac_same. unfold attendance_report. by repeat case_match.
Qed.

(** ** Well-formed tables *)

Lemma NoDup_snoc_fresh (l : list Z) : NoDup l → NoDup (l ++ [next_id l]).
Proof.
  intros Hl. apply NoDup_app. split_and!; [done| |apply NoDup_singleton].
  intros x Hx ->%list_elem_of_singleton. by apply next_id_fresh in Hx.
Qed.

Lemma records_for_nil_key db u d :
  records_for db u d = [] → (u, d) ∉ attendance_key <$> attendance db.
Proof.
  intros Hr (a & Hk & Ha)%list_elem_of_fmap.
  assert (a ∈ records_for db u d) as Hin.
  { apply list_elem_of_filter. split; [|done].
    unfold attendance_key in Hk. by injection Hk as -> ->. }
  rewrite Hr in Hin. by apply elem_of_nil in Hin.
Qed.

Lemma attendance_wf_change db db' :
  attendance_change db db' → attendance_wf db → attendance_wf db'.
Proof.
  intros [db'' Heq|u d t Hr|a t Ha Hco] [Hid Hkey]; unfold attendance_wf.
  - by rewrite Heq.
  - simpl. rewrite !fmap_app. simpl. split.
    + by apply NoDup_snoc_fresh.
    + apply NoDup_app. split_and!; [done| |apply NoDup_singleton].
      intros x Hx ->%list_elem_of_singleton.
      by apply records_for_nil_key in Hr.
  - simpl.
    rewrite replace_row_keys.
    by rewrite (replace_row_proj attendance_id attendance_key a).
Qed.

Lemma ticket_inv_change db db' :
  ticket_change db db' →
  Forall ticket_inv (service_tickets db) →
  Forall ticket_inv (service_tickets db').
Proof.
  intros [db'' Heq|u st desc now|t sid now Ht Hs|t u now Ht Ha Hs] Hinv.
  - by rewrite Heq.
  - simpl. apply Forall_app. split; [done|]. apply Forall_singleton.
    unfold ticket_inv. simpl. split; [done|]. by intros [?|?].
  - simpl. apply replace_row_Forall; [done|].
    unfold ticket_inv. simpl. split; auto.
  - simpl. apply replace_row_Forall; [done|].
    unfold ticket_inv. simpl. rewrite Ha. split; auto.
Qed.

Lemma tickets_wf_change db db' :
  ticket_change db db' → tickets_wf db → tickets_wf db'.
Proof.
  intros Hc (Hid & Hinv & Hst). split_and!.
  - destruct Hc as [db'' Heq|u st desc now|t sid now Ht Hs|t u now Ht Ha Hs];
      simpl; rewrite ?replace_row_keys; try done.
    + by rewrite Heq.
    + rewrite fmap_app. by apply NoDup_snoc_fresh.
  - by apply (ticket_inv_change db).
  - destruct Hc as [db'' Heq|u st desc now|t sid now Ht Hs|t u now Ht Ha Hs];
      simpl.
    + by rewrite Heq.
    + apply Forall_app. split; [done|]. apply Forall_singleton.
      apply list_elem_of_here.
    + apply replace_row_Forall; [done|].
      apply list_elem_of_further, list_elem_of_here.
    + apply replace_row_Forall; [done|].
      do 2 apply list_elem_of_further. apply list_elem_of_here.
Qed.

Lemma run_snoc ops o db : run (ops ++ [o]) db = step o (run ops db).
Proof. unfold run. by rewrite foldl_app. Qed.

Lemma run_reachable ops : reachable (run ops empty_db).
Proof.
  induction ops as [|o ops IH] using rev_ind; [apply reach_empty|].
  rewrite run_snoc. by apply reach_step.
Qed.

Lemma reachable_wf db : reachable db → attendance_wf db ∧ tickets_wf db.
Proof.
  induction 1 as [|o db _ [IHa IHt]].
  - repeat split; simpl; try apply NoDup_nil_2; apply Forall_nil_2.
  - split.
    + eapply attendance_wf_change; [apply step_attendance_change|done].
    + eapply tickets_wf_change; [apply step_ticket_change|done].
Qed.

Lemma NoDup_key_filter_length (l : list Attendance) u d :
  NoDup (attendance_key <$> l) →
  (length (filter (λ a, a_user_id a = u ∧ a_date a = d) l) ≤ 1)%nat.
Proof.
  intros Hnd.
  destruct (filter _ l) as [|a [|b l']] eqn:Hf; simpl; [lia..|exfalso].
  assert (NoDup (attendance_key <$> (a :: b :: l'))) as Hnd'.
  { rewrite <- Hf. eapply sublist_NoDup; [exact Hnd|].
    apply fmap_sublist, sublist_filter. }
  assert (a ∈ filter (λ a, a_user_id a = u ∧ a_date a = d) l) as Ha
    by (rewrite Hf; apply list_elem_of_here).
  assert (b ∈ filter (λ a, a_user_id a = u ∧ a_date a = d) l) as Hb
    by (rewrite Hf; apply list_elem_of_further, list_elem_of_here).
  apply list_elem_of_filter in Ha as [[Ha1 Ha2] _].
  apply list_elem_of_filter in Hb as [[Hb1 Hb2] _].
  rewrite !fmap_cons in Hnd'. apply NoDup_cons in Hnd' as [Hnot _].
  apply Hnot. unfold attendance_key. rewrite Ha1, Ha2, Hb1, Hb2.
  apply list_elem_of_here.
Qed.

(** ** Attendance: one record per user and day *)

Lemma staff_attendance_no_failure u inp db :
  signals_failure (staff_attendance u inp db).2 = false.
Proof. unfold staff_attendance. by repeat case_match. Qed.

Lemma staff_attendance_present u inp db :
  records_for db u (today inp) ≠ [] →
  (StButton "Check In" ∉ (staff_attendance u inp db).2) ∧
  length (attendance (staff_attendance u inp db).1) = length (attendance db) ∧
  (button_clicked inp "Check Out" = false → (staff_attendance u inp db).1 = db).
Proof.
  intros Hr. unfold staff_attendance. rewrite query_attendance_first_records.
  destruct (records_for db u (today inp)) as [|a l]; [done|]. simpl.
  destruct (check_out a).
  - simpl. split_and!; [|done..]. intros Hel. elem_cases Hel.
  - destruct (button_clicked inp "Check Out"); simpl.
    + split_and!; [| |done].
      * intros Hel. elem_cases Hel.
      * unfold replace_row. by rewrite length_fmap.
    + split_and!; [|done..]. intros Hel. elem_cases Hel.
Qed.

(** C1 (as amended): after any sequence of operations there is at most one
    attendance record for a user and a day; when a record for today exists,
    open or closed, the page does not offer the check-in button and no run
    of it adds a record; a run in which check-out is not pressed leaves the
    database as it was; the page never reports a failure. *)
Theorem one_attendance_record_per_day (ops : list op) (u : Z) (d : date)
    (inp : Inputs) :
  let db := run ops empty_db in
  (length (records_for db u d) ≤ 1)%nat ∧
  signals_failure (staff_attendance u inp db).2 = false ∧
  (records_for db u (today inp) ≠ [] →
   (StButton "Check In" ∉ (staff_attendance u inp db).2) ∧
   length (attendance (staff_attendance u inp db).1) = length (attendance db) ∧
   (button_clicked inp "Check Out" = false →
    (staff_attendance u inp db).1 = db)).
Proof.
  intros db. split_and!.
  - apply NoDup_key_filter_length.
    by destruct (reachable_wf db (run_reachable ops)) as [[_ ?] _].
  - apply staff_attendance_no_failure.
  - apply staff_attendance_present.
Qed.

Lemma one_attendance_record_per_day_witness :
  let inp := run_inputs day1 five_pm [] [] "Check In" in
  records_for checked_in_db 1 (today inp) ≠ [] ∧
  (staff_attendance 1 inp checked_in_db).1 = checked_in_db.
Proof.
  intros inp.
  assert (records_for checked_in_db 1 (today inp) ≠ []) as Hr by (by vm_compute).
  split; [exact Hr|].
  destruct (one_attendance_record_per_day (seed_users ++ [check_in_S])
              1 day1 inp) as (_ & _ & H).
  destruct (H Hr) as (_ & _ & Hdb). apply Hdb. reflexivity.
Defined.

(** C1 (as stated) fails: a second check-in on a day with a record reports
    no failure; the page shows the check-in time and the check-out button. *)
Lemma second_check_in_reports_no_failure :
  let inp := run_inputs day1 five_pm [] [] "Check In" in
  records_for checked_in_db 1 (today inp) ≠ [] ∧
  button_clicked inp "Check In" = true ∧
  (staff_attendance 1 inp checked_in_db).2
    = [StHeader "Attendance";
       StWrite [Lit "Checked in at: "; FTime (Some nine_am)];
       StButton "Check Out"] ∧
  signals_failure (staff_attendance 1 inp checked_in_db).2 = false.
Proof. by vm_compute. Qed.

(** ** Attendance: check-out *)

Lemma first_record_after_commit (l : list Attendance) u d a a' :
  head (filter (λ x, a_user_id x = u ∧ a_date x = d) l) = Some a →
  attendance_id a' = attendance_id a → a_user_id a' = u → a_date a' = d →
  head (filter (λ x, a_user_id x = u ∧ a_date x = d)
               (replace_row attendance_id a' l)) = Some a'.
Proof.
  intros Hh Hid Hu Hd. induction l as [|x l IH]; [done|].
  unfold replace_row in *. rewrite fmap_cons.
  destruct (decide (attendance_id x = attendance_id a')) as [Hx|Hx].
  - by rewrite filter_cons_True.
  - rewrite filter_cons in Hh.
    destruct (decide (a_user_id x = u ∧ a_date x = d)) as [Hp|Hp].
    + simpl in Hh. injection Hh as ->. by destruct Hx.
    + rewrite filter_cons_False by done. by apply IH.
Qed.

(** C6 (as amended): with no record for today the page does not offer the
    check-out button, and a run in which only check-out is pressed changes
    nothing and reports no failure; on a record that has a check-out time
    no run changes anything, the page only says that the user has checked
    in and out; on an open record a pressed check-out stores the current
    time as its check-out time, which closes it. *)
Theorem check_out_by_record_state (u : Z) (inp : Inputs) (db : DB) :
  let r := staff_attendance u inp db in
  (query_attendance_first db u (today inp) = None →
   only_clicked inp "Check Out" →
   r.1 = db ∧ (StButton "Check Out" ∉ r.2) ∧ signals_failure r.2 = false) ∧
  (∀ a t, query_attendance_first db u (today inp) = Some a →
          check_out a = Some t →
   r.1 = db ∧ (StButton "Check Out" ∉ r.2) ∧ signals_failure r.2 = false ∧
   StWrite [Lit "You have already checked in and out for today."] ∈ r.2) ∧
  (∀ a, query_attendance_first db u (today inp) = Some a →
        check_out a = None →
        button_clicked inp "Check Out" = true →
   r.1 = commit_attendance db (set_check_out a (now_time inp)) ∧
   query_attendance_first r.1 u (today inp)
     = Some (set_check_out a (now_time inp)) ∧
   check_out (set_check_out a (now_time inp)) = Some (now_time inp)).
Proof.
  simpl. split_and!.
  - intros Hq Hc. unfold staff_attendance. rewrite Hq, (Hc "Check In"). simpl.
    split_and!; [done| |done].
    rewrite !elem_of_cons, elem_of_nil. by intros [|[|]].
  - intros a t Hq Hco. unfold staff_attendance. rewrite Hq, Hco. simpl.
    split_and!; [done| |done|].
    + rewrite !elem_of_cons, elem_of_nil. by intros [|[|[|]]].
    + apply list_elem_of_further, list_elem_of_here.
  - intros a Hq Hco Hb. unfold staff_attendance. rewrite Hq, Hco, Hb. simpl.
    split_and!; [done| |done].
    unfold query_attendance_first in *. simpl.
    apply head_Some_elem_of in Hq as Ha.
    apply list_elem_of_filter in Ha as [[Hu Hd] _].
    by apply first_record_after_commit with (a := a).
Qed.

Lemma check_out_by_record_state_witness :
  let inp := run_inputs day1 five_pm [] [] "Check Out" in
  let a := mkAttendance 1 1 day1 (Some nine_am) None in
  query_attendance_first checked_in_db 1 (today inp) = Some a ∧
  check_out a = None ∧
  button_clicked inp "Check Out" = true ∧
  (staff_attendance 1 inp checked_in_db).1
    = commit_attendance checked_in_db (set_check_out a (now_time inp)).
Proof.
  intros inp a.
  assert (query_attendance_first checked_in_db 1 (today inp) = Some a) as Hq
    by (by vm_compute).
  split_and!; [exact Hq|reflexivity|reflexivity|].
  destruct (check_out_by_record_state 1 inp checked_in_db) as (_ & _ & H).
  destruct (H a Hq eq_refl eq_refl) as [Hdb _]. exact Hdb.
Defined.

(** C6 (as stated) fails: a check-out with no record for the day reports
    no failure; the page shows the check-in button. *)
Lemma check_out_without_record_reports_no_failure :
  let inp := run_inputs day1 five_pm [] [] "Check Out" in
  query_attendance_first seeded_db 1 (today inp) = None ∧
  button_clicked inp "Check Out" = true ∧
  staff_attendance 1 inp seeded_db
    = (seeded_db, [StHeader "Attendance"; StButton "Check In"]) ∧
  signals_failure (staff_attendance 1 inp seeded_db).2 = false.
Proof. by vm_compute. Qed.

(** ** Tickets: assignment and status *)

Lemma get_ticket_Some db tid t :
  get_ticket db tid = Some t → t ∈ service_tickets db ∧ ticket_id t = tid.
Proof.
  intros H%head_Some_elem_of. by apply list_elem_of_filter in H as [? ?].
Qed.

Lemma head_filter_key (l : list ServiceTicket) (t : ServiceTicket) :
  NoDup (ticket_id <$> l) → t ∈ l →
  head (filter (λ x, ticket_id x = ticket_id t) l) = Some t.
Proof.
  induction l as [|x l IH]; intros Hnd Ht; [by apply elem_of_nil in Ht|].
  rewrite fmap_cons in Hnd. apply NoDup_cons in Hnd as [Hx Hnd].
  apply elem_of_cons in Ht as [->|Ht].
  - by rewrite filter_cons_True.
  - rewrite filter_cons_False; [by apply IH|].
    intros Heq. apply Hx. rewrite Heq. by apply list_elem_of_fmap_2.
Qed.

Lemma get_ticket_elem db t :
  NoDup (ticket_id <$> service_tickets db) → t ∈ service_tickets db →
  get_ticket db (ticket_id t) = Some t.
Proof. apply head_filter_key. Qed.

Lemma get_ticket_commit_ne db t' tid :
  ticket_id t' ≠ tid → get_ticket (commit_ticket db t') tid = get_ticket db tid.
Proof.
  intros Hne. unfold get_ticket, commit_ticket, replace_row. simpl. f_equal.
  induction (service_tickets db) as [|x l IH]; [done|].
  rewrite fmap_cons, !filter_cons, IH.
  destruct (decide (ticket_id x = ticket_id t')) as [Hx|Hx].
  - rewrite decide_False by done. by rewrite decide_False by congruence.
  - done.
Qed.

Lemma get_ticket_commit_eq db t t' :
  get_ticket db (ticket_id t') = Some t →
  get_ticket (commit_ticket db t') (ticket_id t') = Some t'.
Proof.
  unfold get_ticket, commit_ticket, replace_row. simpl.
  induction (service_tickets db) as [|x l IH]; [done|].
  rewrite fmap_cons, !filter_cons.
  destruct (decide (ticket_id x = ticket_id t')) as [Hx|Hx].
  - by rewrite decide_True.
  - by rewrite decide_False.
Qed.

Lemma get_ticket_add db t tid :
  get_ticket (add_ticket db t) tid
  = match get_ticket db tid with
    | Some x => Some x
    | None => if decide (ticket_id t = tid) then Some t else None
    end.
Proof.
  unfold get_ticket, add_ticket. simpl. rewrite filter_app.
  destruct (filter _ (service_tickets db)) as [|x l]; [|done]. simpl.
  rewrite filter_cons, filter_nil. by case_decide.
Qed.

(** C3: in every reachable database a ticket has [assigned_to] set exactly
    when its status is In Progress or Completed, and every operation, run
    on any database in which all tickets are so, leaves all tickets so. *)
Theorem assigned_iff_in_progress_or_completed :
  (∀ (ops : list op) (t : ServiceTicket),
     t ∈ service_tickets (run ops empty_db) →
     assigned_to t ≠ None ↔ status t = "In Progress" ∨ status t = "Completed") ∧
  (∀ (o : op) (db : DB),
     Forall ticket_inv (service_tickets db) →
     Forall ticket_inv (service_tickets (step o db))).
Proof.
  split.
  - intros ops t Ht.
    destruct (reachable_wf _ (run_reachable ops)) as [_ (_ & Hinv & _)].
    by eapply Forall_forall in Hinv.
  - intros o db. apply ticket_inv_change, step_ticket_change.
Qed.

Lemma assigned_iff_in_progress_or_completed_witness :
  let t := mkServiceTicket 1 3 "Plumber" "Leaking tap" (Some 1) "In Progress"
             (day1 * 86400000000 + nine_am)
             (day1 * 86400000000 + (nine_am + 1)) in
  t ∈ service_tickets assigned_db ∧
  (assigned_to t ≠ None ↔ status t = "In Progress" ∨ status t = "Completed").
Proof.
  intros t.
  assert (t ∈ service_tickets assigned_db) as Ht
    by (vm_compute; apply list_elem_of_here).
  split; [exact Ht|].
  exact (proj1 assigned_iff_in_progress_or_completed
               (seed_users ++ [raise_plumber; assign_to_S]) t Ht).
Defined.

(** ** Tickets: the status only moves forward *)

Lemma workflow_from_sublist s : workflow_from s `sublist_of` WORKFLOW.
Proof.
  unfold workflow_from, WORKFLOW. repeat case_decide; [done|..].
  - by apply sublist_cons.
  - by do 2 apply sublist_cons.
Qed.

Lemma workflow_cases s :
  s ∈ WORKFLOW ↔ s = "Pending" ∨ s = "In Progress" ∨ s = "Completed".
Proof.
  unfold WORKFLOW. rewrite !elem_of_cons, elem_of_nil. tauto.
Qed.

Lemma squash_chain s l :
  s ∈ WORKFLOW → chain s l → squash (s :: l) `sublist_of` workflow_from s.
Proof.
  revert s. induction l as [|s' l IH]; intros s Hs Hc.
  - apply workflow_cases in Hs as [-> | [-> | ->] ]; vm_compute;
      apply sublist_skip, sublist_nil_l.
  - destruct Hc as [Hadv Hc]. change (squash (s :: s' :: l)) with
      (if decide (s = s') then squash (s' :: l) else s :: squash (s' :: l)).
    destruct Hadv as [-> | [ [-> ->] | [-> ->] ] ].
    + rewrite decide_True by done. by apply IH.
    + rewrite decide_False by done.
      apply (sublist_skip "Pending"), (IH "In Progress"); [|done].
      apply workflow_cases. tauto.
    + rewrite decide_False by done.
      apply (sublist_skip "In Progress"), (IH "Completed"); [|done].
      apply workflow_cases. tauto.
Qed.

Lemma chain_lookup s l i a b :
  chain s l → (s :: l) !! i = Some a → (s :: l) !! S i = Some b → advance a b.
Proof.
  revert s i. induction l as [|s' l IH]; intros s i Hc Ha Hb.
  - destruct i; simpl in *; [done|]. by destruct i.
  - destruct Hc as [Hadv Hc]. destruct i as [|i]; simpl in *.
    + by simplify_eq.
    + by eapply IH.
Qed.

Lemma observed_statuses_nil tid db :
  observed_statuses tid [] db
  = match get_ticket db tid with Some t => [status t] | None => [] end.
Proof. unfold observed_statuses. simpl. by destruct (get_ticket db tid). Qed.

Lemma observed_statuses_cons tid o ops db :
  observed_statuses tid (o :: ops) db
  = match get_ticket db tid with
    | Some t => status t :: observed_statuses tid ops (step o db)
    | None => observed_statuses tid ops (step o db)
    end.
Proof. unfold observed_statuses. simpl. by destruct (get_ticket db tid). Qed.

(** One operation moves the status of a ticket by at most one edge, and a
    ticket that appears is Pending. *)
Lemma step_status o db tid :
  tickets_wf db →
  match get_ticket db tid with
  | Some t =>
      ∃ t', get_ticket (step o db) tid = Some t' ∧ advance (status t) (status t')
  | None =>
      get_ticket (step o db) tid = None ∨
      ∃ t', get_ticket (step o db) tid = Some t' ∧ status t' = "Pending"
  end.
Proof.
  intros (Hid & Hinv & Hst).
  destruct (step_ticket_change o db)
    as [db' Heq|u st desc now|t sid now Ht Hs|t u now Ht Ha Hs].
  - unfold get_ticket. rewrite Heq.
    destruct (head _) as [t|]; [|by left]. exists t. split; [done|by left].
  - rewrite get_ticket_add. destruct (get_ticket db tid) as [t|].
    + exists t. split; [done|by left].
    + case_decide; [right|by left]. by eexists.
  - destruct (decide (ticket_id t = tid)) as [<-|Hne].
    + rewrite (get_ticket_elem db t) by done.
      exists (set_assigned t sid now). split.
      * apply (get_ticket_commit_eq db t (set_assigned t sid now)).
        exact (get_ticket_elem db t Hid Ht).
      * right. left. by rewrite Hs.
    + rewrite get_ticket_commit_ne by done.
      destruct (get_ticket db tid) as [x|]; [|by left].
      exists x. split; [done|by left].
  - destruct (decide (ticket_id t = tid)) as [<-|Hne].
    + rewrite (get_ticket_elem db t) by done.
      exists (set_completed t now). split.
      * apply (get_ticket_commit_eq db t (set_completed t now)).
        exact (get_ticket_elem db t Hid Ht).
      * right. right. split; [|done].
        eapply Forall_forall in Hinv; [|exact Ht].
        destruct Hinv as [Hinv _].
        destruct Hinv as [?|?]; [by rewrite Ha|done|done].
    + rewrite get_ticket_commit_ne by done.
      destruct (get_ticket db tid) as [x|]; [|by left].
      exists x. split; [done|by left].
Qed.

Lemma observed_statuses_chain ops db tid :
  tickets_wf db →
  match get_ticket db tid with
  | Some t =>
      ∃ l, observed_statuses tid ops db = status t :: l ∧ chain (status t) l
  | None =>
      observed_statuses tid ops db = [] ∨
      ∃ l, observed_statuses tid ops db = "Pending" :: l ∧ chain "Pending" l
  end.
Proof.
  revert db. induction ops as [|o ops IH]; intros db Hwf.
  - rewrite observed_statuses_nil. destruct (get_ticket db tid) as [t|].
    + by exists [].
    + by left.
  - rewrite observed_statuses_cons.
    pose proof (step_status o db tid Hwf) as Hstep.
    assert (tickets_wf (step o db)) as Hwf'
      by (eapply tickets_wf_change; [apply step_ticket_change|done]).
    specialize (IH (step o db) Hwf').
    destruct (get_ticket db tid) as [t|].
    + destruct Hstep as (t' & Hg & Hadv). rewrite Hg in IH.
      destruct IH as (l & -> & Hc). exists (status t' :: l). by split.
    + destruct Hstep as [Hg|(t' & Hg & Hp)]; rewrite Hg in IH.
      * done.
      * right. destruct IH as (l & -> & Hc). rewrite Hp in *. by exists l.
Qed.

(** C2: over any sequence of operations the statuses observed for a ticket,
    repetitions collapsed, form a subsequence of Pending, In Progress,
    Completed; from one observation to the next the status stays or moves
    along one edge, so it never moves back and never from Pending straight
    to Completed. *)
Theorem ticket_status_monotonic (ops : list op) (tid : Z) :
  let seen := observed_statuses tid ops empty_db in
  squash seen `sublist_of` WORKFLOW ∧
  (∀ (i : nat) (s s' : string),
     seen !! i = Some s → seen !! S i = Some s' →
     s' = s ∨ (s = "Pending" ∧ s' = "In Progress")
            ∨ (s = "In Progress" ∧ s' = "Completed")).
Proof.
  intros seen.
  destruct (reachable_wf _ reach_empty) as [_ Hwf].
  pose proof (observed_statuses_chain ops empty_db tid Hwf) as H.
  change (get_ticket empty_db tid) with (@None ServiceTicket) in H.
  fold seen in H. destruct H as [->|(l & -> & Hc)].
  - split; [apply sublist_nil_l|]. intros i s s' Hi. by destruct i.
  - split.
    + etrans; [|apply (workflow_from_sublist "Pending")].
      apply squash_chain; [|done]. apply workflow_cases. tauto.
    + intros i s s' Hi HSi. by apply (chain_lookup "Pending" l i).
Qed.

Lemma ticket_status_monotonic_witness :
  let ops := seed_users ++ [raise_plumber; assign_to_S; complete_by 1] in
  observed_statuses 1 ops empty_db = ["Pending"; "In Progress"; "Completed"] ∧
  squash (observed_statuses 1 ops empty_db) `sublist_of` WORKFLOW.
Proof.
  intros ops. split; [by vm_compute|].
  exact (proj1 (ticket_status_monotonic ops 1)).
Defined.

(** ** Tickets: the buttons a page offers *)

Lemma assign_key_inj a b : assign_key a = assign_key b → a = b.
Proof.
  unfold assign_key. intros H. simpl in H. simplify_eq. by apply (inj pretty).
Qed.


Lemma manager_service_tickets_unfold inp db :
  manager_service_tickets inp db
  = if decide (service_tickets db = [])
    then (db, [StHeader "Manage Service Tickets";
               StWrite [Lit "No service tickets available."]])
    else ((manager_loop inp db (service_tickets db)).1,
          StHeader "Manage Service Tickets"
            :: (manager_loop inp db (service_tickets db)).2).
Proof.
  unfold manager_service_tickets.
  destruct (service_tickets db) as [|t ts] eqn:Hts; [done|].
  rewrite decide_False by done. by destruct (manager_loop inp db (t :: ts)).
Qed.


Lemma manager_loop_buttons inp db ts k :
  StButton k ∈ (manager_loop inp db ts).2 →
  ∃ t, t ∈ ts ∧ status t = "Pending" ∧ k = assign_key (ticket_id t).
Proof.
  induction ts as [|t ts IH]; simpl; intros H; [by apply elem_of_nil in H|].
  assert (StButton k ∈ (manager_loop inp db ts).2 →
          ∃ t', t' ∈ t :: ts ∧ status t' = "Pending"
                ∧ k = assign_key (ticket_id t')) as IH'.
  { intros (t' & ? & ? & ?)%IH. exists t'. split_and!; try done.
    by apply list_elem_of_further. }
  assert (status t = "Pending" → StButton k = StButton (assign_key (ticket_id t)) →
          ∃ t', t' ∈ t :: ts ∧ status t' = "Pending"
                ∧ k = assign_key (ticket_id t')) as Hhere.
  { intros Hs [= ->]. exists t. split_and!; try done. apply list_elem_of_here. }
  clear IH. unfold manager_ticket_lines in H. case_decide as Hs.
  - destruct (button_clicked inp (assign_key (ticket_id t))).
    + destruct (_ ≫= _); simpl in H; elem_cases H; auto.
    + destruct (manager_loop inp db ts) as [db' out]. simpl in *.
      elem_cases H; auto.
  - destruct (manager_loop inp db ts) as [db' out]. simpl in *.
    elem_cases H; auto.
Qed.


(** A run in which no offered button is pressed changes nothing and
    reports neither a success nor a failure. *)
Lemma manager_loop_quiet inp db ts :
  (∀ t, t ∈ ts → status t = "Pending" →
        button_clicked inp (assign_key (ticket_id t)) = false) →
  (manager_loop inp db ts).1 = db ∧
  signals_failure (manager_loop inp db ts).2 = false.
Proof.
  induction ts as [|t ts IH]; intros Hq; simpl; [done|].
  destruct IH as [IH1 IH2].
  { intros t' Ht'. apply Hq. by apply list_elem_of_further. }
  case_decide as Hs.
  - rewrite (Hq t) by (done || apply list_elem_of_here).
    destruct (manager_loop inp db ts) as [db' out]. by simpl in *.
  - destruct (manager_loop inp db ts) as [db' out]. by simpl in *.
Qed.




(** ** Tickets: assignment *)

(** C4 (as amended): for a ticket that is not Pending the page offers no
    assign button; whatever is pressed in a run, the ticket's row, with its
    [assigned_to] and its status, is as before; a run in which only that
    ticket's assign button is pressed changes nothing in the database and
    reports no failure. *)
Theorem assign_only_when_pending (ops : list op) (tid : Z) (t : ServiceTicket)
    (inp : Inputs) :
  let db := run ops empty_db in
  get_ticket db tid = Some t →
  status t ≠ "Pending" →
  let r := manager_service_tickets inp db in
  get_ticket r.1 tid = Some t ∧
  (StButton (assign_key tid) ∉ r.2) ∧
  (only_clicked inp (assign_key tid) →
   r.1 = db ∧ signals_failure r.2 = false).
Proof.
  intros db Hg Hs r.
  destruct (reachable_wf db (run_reachable ops)) as [_ (Hid & _ & _)].
  assert (∀ t', t' ∈ service_tickets db → status t' = "Pending" →
                ticket_id t' ≠ tid) as Hother.
  { intros t' Ht' Hs' <-. rewrite (get_ticket_elem db t') in Hg by done.
    injection Hg as ->. done. }
  split_and!.
  - destruct (manager_service_tickets_db inp db)
      as [Hr|(t' & sid & Ht' & Hs' & _ & Hr)]; subst r; rewrite Hr; [done|].
    rewrite get_ticket_commit_ne; [done|]. exact (Hother t' Ht' Hs').
  - subst r. rewrite manager_service_tickets_unfold. case_decide; simpl.
    + intros Hel. elem_cases Hel.
    + intros Hel. elem_cases Hel.
      apply manager_loop_buttons in Hel as (t' & Ht' & Hs' & Hk%assign_key_inj).
      by apply (Hother t').
  - intros Hc. subst r. rewrite manager_service_tickets_unfold.
    case_decide; simpl; [done|]. apply manager_loop_quiet.
    intros t' Ht' Hs'. rewrite Hc. apply bool_decide_eq_false_2.
    intros Hk%assign_key_inj. by apply (Hother t').
Qed.

Lemma assign_only_when_pending_witness :
  let t := mkServiceTicket 1 3 "Plumber" "Leaking tap" (Some 1) "In Progress"
             (day1 * 86400000000 + nine_am)
             (day1 * 86400000000 + (nine_am + 1)) in
  let inp := run_inputs day1 five_pm [] [("ticket_1", "S2 (ID: 2)")] "assign_1" in
  get_ticket assigned_db 1 = Some t ∧
  status t ≠ "Pending" ∧
  get_ticket (manager_service_tickets inp assigned_db).1 1 = Some t.
Proof.
  intros t inp.
  assert (get_ticket assigned_db 1 = Some t) as Hg by (by vm_compute).
  assert (status t ≠ "Pending") as Hs by (by vm_compute).
  split_and!; [exact Hg|exact Hs|].
  exact (proj1 (assign_only_when_pending
                  (seed_users ++ [raise_plumber; assign_to_S]) 1 t inp Hg Hs)).
Defined.

(** C4 (as stated) fails: pressing the assign button of a ticket that is In
    Progress reports no failure; the page lists the ticket without the
    button. *)
Lemma assign_in_progress_reports_no_failure :
  let inp := run_inputs day1 five_pm [] [("ticket_1", "S2 (ID: 2)")] "assign_1" in
  (status <$> get_ticket assigned_db 1) = Some "In Progress" ∧
  button_clicked inp (assign_key 1) = true ∧
  manager_service_tickets inp assigned_db
    = (assigned_db,
       [StHeader "Manage Service Tickets";
        StWrite [Lit "**Ticket ID:** "; FInt 1];
        StWrite [Lit "**Client ID:** "; FInt 3];
        StWrite [Lit "**Service Type:** "; FStr "Plumber"];
        StWrite [Lit "**Description:** "; FStr "Leaking tap"];
        StWrite [Lit "**Status:** "; FStr "In Progress"];
        StWrite [Lit "---"]]) ∧
  signals_failure (manager_service_tickets inp assigned_db).2 = false.
Proof. by vm_compute. Qed.

(** ** Tickets: completion *)




(** ** Raising a ticket *)

Lemma st_selectbox_elem inp key options c :
  st_selectbox inp key options = Some c → c ∈ options.
Proof.
  unfold st_selectbox. intros H.
  destruct (selectbox_value inp key) as [c'|].
  - case_decide; [by simplify_eq|]. by apply head_Some_elem_of.
  - by apply head_Some_elem_of.
Qed.





(** ** Attendance report *)

Lemma report_lines_no_failure (l : list Attendance) :
  signals_failure (report_line <$> l) = false.
Proof. by induction l. Qed.

(** C8 (as amended): a generated report lists exactly the records whose
    date lies in the inclusive range, in the order of the table (the order
    of insertion); with equal bounds these are the records of that day; with
    no such record the page says so; it never reports a failure and never
    changes the database. *)
Theorem attendance_report_range (inp : Inputs) (db : DB) :
  button_clicked inp "Generate Report" = true →
  let start_date := st_date_input inp "Start Date" (today inp) in
  let end_date := st_date_input inp "End Date" (today inp) in
  let records := query_attendance_between db start_date end_date in
  (∀ a, a ∈ records ↔ a ∈ attendance db ∧ start_date ≤ a_date a ≤ end_date) ∧
  records `sublist_of` attendance db ∧
  (start_date = end_date →
   records = filter (λ a, a_date a = start_date) (attendance db)) ∧
  attendance_report inp db
  = (db,
     [StHeader "Attendance Report"; StDateInput "Start Date";
      StDateInput "End Date"; StButton "Generate Report"] ++
     if decide (records = [])
     then [StWrite [Lit "No attendance records found for the selected period."]]
     else report_line <$> records) ∧
  signals_failure (attendance_report inp db).2 = false.
Proof.
  intros Hb start_date end_date records.
  assert (attendance_report inp db
          = (db,
             [StHeader "Attendance Report"; StDateInput "Start Date";
              StDateInput "End Date"; StButton "Generate Report"] ++
             if decide (records = [])
             then [StWrite [Lit "No attendance records found for the selected period."]]
             else report_line <$> records)) as Hrep.
  { unfold attendance_report. rewrite Hb. fold start_date end_date records.
    by destruct records. }
  split_and!.
  - intros a. unfold records, query_attendance_between.
    rewrite list_elem_of_filter. tauto.
  - apply sublist_filter.
  - intros Heq. unfold records, query_attendance_between. rewrite <- Heq.
    apply list_filter_iff. intros a. lia.
  - exact Hrep.
  - rewrite Hrep. simpl. case_decide; [done|]. apply report_lines_no_failure.
Qed.

Lemma attendance_report_range_witness :
  let inp := run_inputs day1 five_pm [] [] "Generate Report" in
  button_clicked inp "Generate Report" = true ∧
  (attendance_report inp two_check_ins_db).1 = two_check_ins_db ∧
  signals_failure (attendance_report inp two_check_ins_db).2 = false.
Proof.
  intros inp. split; [reflexivity|].
  destruct (attendance_report_range inp two_check_ins_db eq_refl)
    as (_ & _ & _ & Hrep & Hnf).
  split; [by rewrite Hrep|exact Hnf].
Defined.

(** C8 (as stated) fails: the report of one day lists the records in the
    order of check-in, user 2 before user 1, not by user identifier. *)
Lemma report_in_insertion_order :
  let inp := run_inputs day1 five_pm [] [] "Generate Report" in
  let records := query_attendance_between two_check_ins_db day1 day1 in
  a_date <$> records = [day1; day1] ∧
  a_user_id <$> records = [2; 1] ∧
  (attendance_report inp two_check_ins_db).2
  = [StHeader "Attendance Report"; StDateInput "Start Date";
     StDateInput "End Date"; StButton "Generate Report";
     report_line (mkAttendance 1 2 day1 (Some nine_am) None);
     report_line (mkAttendance 2 1 day1 (Some (nine_am + 1)) None)] ∧
  ¬ Sorted date_then_user records.
Proof.
  intros inp records.
  assert (records = [mkAttendance 1 2 day1 (Some nine_am) None;
                     mkAttendance 2 1 day1 (Some (nine_am + 1)) None]) as ->
    by (by vm_compute).
  split_and!; [done|done|by vm_compute|].
  intros Hs. inversion Hs as [|?? _ Hhd]; subst.
  inversion Hhd as [|?? Hab]; subst.
  unfold date_then_user in Hab. simpl in Hab. lia.
Qed.

(** ** Creating users *)





(** C10: when the password and its confirmation differ, registration
    stores nothing, whatever the other fields hold; pressing Register then
    shows the mismatch error and no success. *)
Theorem password_mismatch_rejected (inp : Inputs) (db : DB) :
  text_value inp "Password" ≠ text_value inp "Confirm Password" →
  (register_user inp db).1 = db ∧
  existsb is_success (register_user inp db).2 = false ∧
  (button_clicked inp "Register" = true →
   StError "Passwords do not match!" ∈ (register_user inp db).2).
Proof.
  intros Hne. unfold register_user.
  destruct (button_clicked inp "Register"); [|done].
  rewrite decide_True by done. simpl. split_and!; [done..|].
  intros _. do 14 apply list_elem_of_further. apply list_elem_of_here.
Qed.

Lemma password_mismatch_rejected_witness :
  let inp := run_inputs day1 0
               [("Full Name", "New Staff"); ("Email", "new@erp");
                ("Aadhar Card Number", "5555"); ("Password", "secret");
                ("Confirm Password", "secert")]
               [("Role", "staff")] "Register" in
  text_value inp "Password" ≠ text_value inp "Confirm Password" ∧
  (register_user inp seeded_db).1 = seeded_db.
Proof.
  intros inp.
  assert (text_value inp "Password" ≠ text_value inp "Confirm Password") as Hne
    by (by vm_compute).
  split; [exact Hne|].
  exact (proj1 (password_mismatch_rejected inp seeded_db Hne)).
Defined.

(** ** The scenarios of the specification, run on the model *)

(** C raises a Plumber ticket, the manager assigns S, S2 presses complete
    to no effect, then S completes it. *)
Example scenario_ticket_lifecycle :
  get_ticket assigned_db 1
    = Some (mkServiceTicket 1 3 "Plumber" "Leaking tap" (Some 1) "In Progress"
              (day1 * 86400000000 + nine_am)
              (day1 * 86400000000 + (nine_am + 1))) ∧
  step (complete_by 2) assigned_db = assigned_db ∧
  get_ticket (step (complete_by 1) assigned_db) 1
    = Some (mkServiceTicket 1 3 "Plumber" "Leaking tap" (Some 1) "Completed"
              (day1 * 86400000000 + nine_am)
              (day1 * 86400000000 + five_pm)).
Proof. by vm_compute. Qed.

(** S checks in at nine and out at five; a later check-in changes nothing. *)
Example scenario_attendance_day :
  let out_at_five :=
    StaffAttendance 1 (run_inputs day1 five_pm [] [] "Check Out") in
  let in_again :=
    StaffAttendance 1 (run_inputs day1 (five_pm + 1) [] [] "Check In") in
  attendance checked_in_db = [mkAttendance 1 1 day1 (Some nine_am) None] ∧
  attendance (step out_at_five checked_in_db)
    = [mkAttendance 1 1 day1 (Some nine_am) (Some five_pm)] ∧
  step in_again (step out_at_five checked_in_db) = step out_at_five checked_in_db.
Proof. by vm_compute. Qed.

(** * Further properties of the code *)

(** ** Identity: creating, finding and authenticating users *)

Lemma create_user_Ok inp ud db db' u :
  create_user inp ud db = (db', Ok u) →
  u = new_user_row inp ud db ∧
  db' = mkDB (users db ++ [u]) (attendance db) (service_tickets db) ∧
  (ud_email ud ∉ email <$> users db) ∧
  (ud_aadhar_number ud ∉ aadhar_number <$> users db).
Proof.
  unfold create_user. simpl. case_decide as Hd; intros Heq; [done|].
  injection Heq as <- <-. split_and!; [done..| |]; intros ?; apply Hd; auto.
Qed.

Lemma create_user_Raise inp ud db db' exn :
  create_user inp ud db = (db', Raise exn) →
  db' = db ∧ exn = "IntegrityError" ∧
  (ud_email ud ∈ email <$> users db
   ∨ ud_aadhar_number ud ∈ aadhar_number <$> users db).
Proof.
  unfold create_user. simpl. case_decide as Hd; intros Heq; [|done].
  by injection Heq as <- <-.
Qed.

Lemma get_user_by_email_None db e :
  get_user_by_email db e = None ↔ e ∉ email <$> users db.
Proof.
  unfold get_user_by_email. rewrite head_None. split.
  - intros Hf (u & -> & Hu)%list_elem_of_fmap.
    assert (u ∈ filter (λ u0, email u0 = email u) (users db)) as Hin
      by (by apply list_elem_of_filter).
    rewrite Hf in Hin. by apply elem_of_nil in Hin.
  - intros He. apply elem_of_nil_inv. intros u [Hu Hin]%list_elem_of_filter.
    apply He. rewrite <- Hu. by apply list_elem_of_fmap_2.
Qed.

Lemma get_user_by_email_created inp ud db db' u :
  create_user inp ud db = (db', Ok u) →
  get_user_by_email db' (ud_email ud) = Some u.
Proof.
  intros (-> & -> & He & _)%create_user_Ok. unfold get_user_by_email. simpl.
  rewrite filter_app. apply get_user_by_email_None in He.
  unfold get_user_by_email in He. apply head_None in He. rewrite He.
  by rewrite filter_cons_True.
Qed.

(** X1: a user that [create_user] has stored is the one [get_user_by_email]
    finds under the e-mail given, and the lookups of all other e-mails are
    as before. *)
Theorem created_user_found_by_email (inp : Inputs) (ud : UserData) (db db' : DB)
    (u : User) :
  create_user inp ud db = (db', Ok u) →
  get_user_by_email db' (ud_email ud) = Some u ∧
  (∀ e, e ≠ ud_email ud → get_user_by_email db' e = get_user_by_email db e).
Proof.
  intros (-> & -> & He & _)%create_user_Ok. unfold get_user_by_email. simpl.
  split.
  - rewrite filter_app. apply get_user_by_email_None in He.
    unfold get_user_by_email in He. apply head_None in He. rewrite He.
    by rewrite filter_cons_True.
  - intros e Hne. rewrite filter_app, filter_cons_False, filter_nil by (simpl; congruence).
    by rewrite app_nil_r.
Qed.

Lemma created_user_found_by_email_witness :
  let inp := run_inputs day1 0 [] [] "" in
  let ud := person "M" "m@erp" "5555" "manager" in
  ∃ db' u, create_user inp ud seeded_db = (db', Ok u) ∧
           get_user_by_email db' "m@erp" = Some u.
Proof.
  intros inp ud.
  exists (create_user inp ud seeded_db).1, (new_user_row inp ud seeded_db).
  assert (create_user inp ud seeded_db
          = ((create_user inp ud seeded_db).1, Ok (new_user_row inp ud seeded_db)))
    as Hc by (by vm_compute).
  split; [exact Hc|].
  exact (proj1 (created_user_found_by_email inp ud seeded_db _ _ Hc)).
Defined.

(** X2: [authenticate_user] fails closed: for an e-mail that no user has it
    returns nothing, and a user it returns is a stored one with that e-mail
    whose stored hash verifies the password. *)
Theorem authenticate_user_fails_closed (db : DB) (e password : string) :
  (e ∉ email <$> users db → authenticate_user db e password = None) ∧
  (∀ u, authenticate_user db e password = Some u →
        u ∈ users db ∧ email u = e ∧
        verify_password password (password_hash u) = true).
Proof.
  unfold authenticate_user. split.
  - intros He%get_user_by_email_None. by rewrite He.
  - intros u Hu. destruct (get_user_by_email db e) as [u'|] eqn:Hg; [|done].
    destruct (verify_password password (password_hash u')) eqn:Hv; [|done].
    injection Hu as <-. unfold get_user_by_email in Hg.
    apply head_Some_elem_of, list_elem_of_filter in Hg as [? ?]. done.
Qed.

Lemma authenticate_user_fails_closed_witness :
  ("nobody@erp" ∉ email <$> users seeded_db) ∧
  authenticate_user seeded_db "nobody@erp" "secret" = None.
Proof.
  assert ("nobody@erp" ∉ email <$> users seeded_db) as He.
  { vm_compute. intros H. elem_cases H. }
  split; [exact He|].
  exact (proj1 (authenticate_user_fails_closed seeded_db "nobody@erp" "secret") He).
Defined.

(** X3: a user stored by [create_user] authenticates with the e-mail and the
    password given at creation. *)
Theorem created_user_authenticates (inp : Inputs) (ud : UserData) (db db' : DB)
    (u : User) :
  create_user inp ud db = (db', Ok u) →
  authenticate_user db' (ud_email ud) (ud_password ud) = Some u.
Proof.
  intros Hc. unfold authenticate_user.
  rewrite (get_user_by_email_created inp ud db db' u Hc).
  apply create_user_Ok in Hc as (-> & _). simpl.
  unfold verify_password, checkpw, hash_password.
  by rewrite bool_decide_eq_true_2.
Qed.

Lemma created_user_authenticates_witness :
  let inp := run_inputs day1 0 [] [] "" in
  let ud := person "M" "m@erp" "5555" "manager" in
  ∃ db' u, create_user inp ud seeded_db = (db', Ok u) ∧
           authenticate_user db' "m@erp" "secret" = Some u.
Proof.
  intros inp ud.
  exists (create_user inp ud seeded_db).1, (new_user_row inp ud seeded_db).
  assert (create_user inp ud seeded_db
          = ((create_user inp ud seeded_db).1, Ok (new_user_row inp ud seeded_db)))
    as Hc by (by vm_compute).
  split; [exact Hc|].
  exact (created_user_authenticates inp ud seeded_db _ _ Hc).
Defined.

Lemma register_user_db inp db :
  (register_user inp db).1 = db ∨
  ∃ role u, role ∈ ROLES ∧
    create_user inp (form_user_data inp role) db
    = ((register_user inp db).1, Ok u).
Proof.
  unfold register_user.
  destruct (button_clicked inp "Register"); [|by left].
  case_decide; [by left|].
  destruct (get_user_by_email _ _); [by left|].
  destruct (st_selectbox inp "Role" ROLES) as [r|] eqn:Hr; [|by left].
  apply st_selectbox_elem in Hr.
  match goal with |- context [create_user inp ?d db] =>
    change d with (form_user_data inp r) end.
  destruct (create_user inp (form_user_data inp r) db) as [db' [u|exn]] eqn:Hc.
  - right. by exists r, u.
  - left. by apply create_user_Raise in Hc as [-> _].
Qed.

(** The users table only changes by one row that [create_user] appends. *)
Lemma step_users o db :
  users (step o db) = users db ∨
  ∃ inp ud u, create_user inp ud db = (step o db, Ok u).
Proof.
  destruct o as [inp ud|inp|u inp|u inp|u|inp|u inp|inp]; simpl.
  - destruct (create_user inp ud db) as [db' [u|exn]] eqn:Hc.
    + right. by exists inp, ud, u.
    + left. by apply create_user_Raise in Hc as [-> _].
  - destruct (register_user_db inp db) as [->|(r & u & _ & Hc)]; [by left|].
    right. by exists inp, (form_user_data inp r), u.
  - left. unfold staff_attendance. by repeat case_match.
  - left. unfold client_service_request. by repeat case_match.
  - left. unfold client_view_tickets. by case_match.
  - left. by destruct (manager_service_tickets_db inp db)
      as [->|(t & sid & ? & ? & ? & ->)].
  - left. by destruct (staff_assigned_tickets_db u inp db)
      as [->|(t & ? & ? & ? & ? & ->)].
  - left. unfold attendance_report. by repeat case_match.
Qed.

Lemma users_kept_step o db u : u ∈ users db → u ∈ users (step o db).
Proof.
  intros Hu. destruct (step_users o db) as [->|(inp & ud & u' & Hc)]; [done|].
  apply create_user_Ok in Hc as (_ & -> & _). simpl. apply elem_of_app. by left.
Qed.

Lemma users_wf_step o db : users_wf db → users_wf (step o db).
Proof.
  intros (Hid & He & Ha).
  destruct (step_users o db) as [Heq|(inp & ud & u & Hc)]; unfold users_wf.
  - by rewrite Heq.
  - apply create_user_Ok in Hc as (-> & -> & Hne & Hna). simpl.
    rewrite !fmap_app. simpl. split_and!.
    + by apply NoDup_snoc_fresh.
    + apply NoDup_app. split_and!; [done| |apply NoDup_singleton].
      by intros x Hx ->%list_elem_of_singleton.
    + apply NoDup_app. split_and!; [done| |apply NoDup_singleton].
      by intros x Hx ->%list_elem_of_singleton.
Qed.

Lemma reachable_users_wf db : reachable db → users_wf db.
Proof.
  induction 1 as [|o db _ IH]; [|by apply users_wf_step].
  repeat split; apply NoDup_nil_2.
Qed.

(** X4: after any sequence of operations the user identifiers, the e-mails
    and the Aadhar numbers of the stored users are pairwise different. *)
Theorem users_keys_unique (ops : list op) :
  let db := run ops empty_db in
  NoDup (user_id <$> users db) ∧
  NoDup (email <$> users db) ∧
  NoDup (aadhar_number <$> users db).
Proof. intros db. apply reachable_users_wf, run_reachable. Qed.

(** X5: no operation deletes or alters a stored user: the users table
    before an operation is a prefix of the table after it, so a user keeps
    its identifier, its role and its password hash for good. *)
Theorem users_append_only (o : op) (db : DB) :
  users db `prefix_of` users (step o db).
Proof.
  destruct (step_users o db) as [->|(inp & ud & u & Hc)]; [done|].
  apply create_user_Ok in Hc as (_ & -> & _). simpl. by apply prefix_app_r.
Qed.



(** ** Attendance: what a run can and cannot touch *)

Lemma run_app ops ops' db : run (ops ++ ops') db = run ops' (run ops db).
Proof. unfold run. by rewrite foldl_app. Qed.

Lemma filter_replace_row_other (P : Attendance → Prop)
    `{!∀ x, Decision (P x)} (l : list Attendance) (a a' : Attendance) :
  NoDup (attendance_id <$> l) → a ∈ l →
  attendance_id a' = attendance_id a → ¬ P a → ¬ P a' →
  filter P (replace_row attendance_id a' l) = filter P l.
Proof.
  intros Hnd Ha Hid Hp Hp'. unfold replace_row.
  assert (∀ x, x ∈ l → attendance_id x = attendance_id a' → x = a) as Hsame.
  { intros x Hx Hx'. apply (NoDup_key_inj attendance_id l); [done..|congruence]. }
  clear Hnd Ha. induction l as [|x l IH]; [done|].
  rewrite fmap_cons, !filter_cons.
  rewrite IH by (intros y Hy; apply Hsame; by apply list_elem_of_further).
  destruct (decide (attendance_id x = attendance_id a')) as [Hx|Hx]; [|done].
  rewrite (Hsame x) by (done || apply list_elem_of_here).
  by rewrite !decide_False.
Qed.

(** X7: a pressed check-in on a day without a record appends one open
    record for the session user and today, with the current time as
    check-in time, and ends the run with a rerun. *)
Theorem check_in_opens_record (u : Z) (inp : Inputs) (db : DB) :
  records_for db u (today inp) = [] →
  button_clicked inp "Check In" = true →
  let r := staff_attendance u inp db in
  let a := mkAttendance (next_id (attendance_id <$> attendance db)) u
             (today inp) (Some (now_time inp)) None in
  r.1 = add_attendance db a ∧
  records_for r.1 u (today inp) = [a] ∧
  last r.2 = Some StRerun.
Proof.
  intros Hr Hb. simpl. unfold staff_attendance.
  rewrite query_attendance_first_records, Hr, Hb. simpl. split_and!; [done| |done].
  unfold records_for in *. simpl. rewrite filter_app, Hr.
  by rewrite filter_cons_True.
Qed.

Lemma check_in_opens_record_witness :
  let inp := run_inputs day1 nine_am [] [] "Check In" in
  records_for seeded_db 2 (today inp) = [] ∧
  button_clicked inp "Check In" = true ∧
  records_for (staff_attendance 2 inp seeded_db).1 2 (today inp)
    = [mkAttendance (next_id (attendance_id <$> attendance seeded_db)) 2
         (today inp) (Some (now_time inp)) None].
Proof.
  intros inp. split; [reflexivity|]. split; [reflexivity|].
  exact (proj1 (proj2 (check_in_opens_record 2 inp seeded_db eq_refl eq_refl))).
Defined.

(** X8: a run of the attendance page by one user touches nothing but that
    user's record of today: the records of every other user or day, the
    users and the tickets are as before. *)
Theorem attendance_of_others_untouched (ops : list op) (u : Z) (inp : Inputs)
    (u' : Z) (d' : date) :
  let db := run ops empty_db in
  (u', d') ≠ (u, today inp) →
  records_for (staff_attendance u inp db).1 u' d' = records_for db u' d' ∧
  users (staff_attendance u inp db).1 = users db ∧
  service_tickets (staff_attendance u inp db).1 = service_tickets db.
Proof.
  intros db Hne.
  destruct (reachable_wf db (run_reachable ops)) as [[Hid _] _].
  unfold staff_attendance. rewrite query_attendance_first_records.
  destruct (records_for db u (today inp)) as [|a l] eqn:Hr; simpl.
  - destruct (button_clicked inp "Check In"); [|done]. simpl.
    split_and!; [|done..]. unfold records_for. simpl.
    rewrite filter_app, filter_cons_False, filter_nil, app_nil_r; [done|].
    simpl. intros [Hu Hd]. apply Hne. by rewrite Hu, Hd.
  - assert (a ∈ records_for db u (today inp)) as Ha
      by (rewrite Hr; apply list_elem_of_here).
    apply list_elem_of_filter in Ha as [[Hu Hd] Ha].
    destruct (check_out a); [done|].
    destruct (button_clicked inp "Check Out"); [|done]. simpl.
    split_and!; [|done..]. unfold records_for. simpl.
    apply (filter_replace_row_other _ _ a); try done.
    + intros [Hu' Hd']. apply Hne. by rewrite <- Hu', <- Hd', Hu, Hd.
    + simpl. intros [Hu' Hd']. apply Hne. by rewrite <- Hu', <- Hd', Hu, Hd.
Qed.

Lemma attendance_of_others_untouched_witness :
  let inp := run_inputs day1 five_pm [] [] "Check Out" in
  (2, day1) ≠ (1, today inp) ∧
  records_for (staff_attendance 1 inp two_check_ins_db).1 2 day1
    = records_for two_check_ins_db 2 day1.
Proof.
  intros inp.
  assert ((2, day1) ≠ (1, today inp)) as Hne by (by vm_compute).
  split; [exact Hne|].
  exact (proj1 (attendance_of_others_untouched
                  (seed_users ++
                   [StaffAttendance 2 (run_inputs day1 nine_am [] [] "Check In");
                    StaffAttendance 1
                      (run_inputs day1 (nine_am + 1) [] [] "Check In")])
                  1 inp 2 day1 Hne)).
Defined.

Lemma attendance_kept_step o db a :
  attendance_wf db → a ∈ attendance db →
  ∃ a', a' ∈ attendance (step o db) ∧
        attendance_id a' = attendance_id a ∧ a_user_id a' = a_user_id a ∧
        a_date a' = a_date a ∧ check_in a' = check_in a ∧
        (∀ t, check_out a = Some t → check_out a' = Some t).
Proof.
  intros [Hid _] Ha.
  destruct (step_attendance_change o db) as [db' Heq|u d t Hr|b t Hb Hco].
  - exists a. rewrite Heq. by split_and!.
  - exists a. split_and!; try done. simpl. apply elem_of_app. by left.
  - destruct (decide (attendance_id a = attendance_id b)) as [Hab|Hab].
    + assert (a = b) as -> by (by apply (NoDup_key_inj attendance_id (attendance db))).
      exists (set_check_out b t). split_and!; try done.
      * simpl. unfold replace_row. apply list_elem_of_fmap.
        exists b. split; [|done]. by rewrite decide_True.
      * intros t' Ht'. congruence.
    + exists a. split_and!; try done. simpl. unfold replace_row.
      apply list_elem_of_fmap. exists a. split; [|done].
      by rewrite decide_False.
Qed.

(** X9: attendance records are permanent: whatever operations follow, a
    stored record stays in the table with its identifier, user, date and
    check-in time, and a check-out time once set is never replaced. *)
Theorem attendance_records_permanent (ops ops' : list op) (a : Attendance) :
  a ∈ attendance (run ops empty_db) →
  ∃ a', a' ∈ attendance (run (ops ++ ops') empty_db) ∧
        attendance_id a' = attendance_id a ∧ a_user_id a' = a_user_id a ∧
        a_date a' = a_date a ∧ check_in a' = check_in a ∧
        (∀ t, check_out a = Some t → check_out a' = Some t).
Proof.
  intros Ha. induction ops' as [|o ops' IH] using rev_ind.
  - rewrite app_nil_r. exists a. by split_and!.
  - destruct IH as (a1 & Ha1 & Hi1 & Hu1 & Hd1 & Hc1 & Ho1).
    rewrite app_assoc, run_snoc.
    destruct (attendance_kept_step o (run (ops ++ ops') empty_db) a1)
      as (a2 & Ha2 & Hi2 & Hu2 & Hd2 & Hc2 & Ho2); [|done|].
    { apply reachable_wf, run_reachable. }
    exists a2. split_and!; [done|congruence..|]. intros t Ht. auto.
Qed.

Lemma attendance_records_permanent_witness :
  let a := mkAttendance 1 2 day1 (Some nine_am) None in
  let later := [StaffAttendance 1 (run_inputs day1 five_pm [] [] "Check Out")] in
  a ∈ attendance two_check_ins_db ∧
  ∃ a', a' ∈ attendance (run later two_check_ins_db) ∧
        attendance_id a' = 1 ∧ check_in a' = Some nine_am.
Proof.
  intros a later.
  assert (a ∈ attendance two_check_ins_db) as Ha
    by (vm_compute; apply list_elem_of_here).
  split; [exact Ha|].
  destruct (attendance_records_permanent
              (seed_users ++
               [StaffAttendance 2 (run_inputs day1 nine_am [] [] "Check In");
                StaffAttendance 1
                  (run_inputs day1 (nine_am + 1) [] [] "Check In")])
              later a Ha) as (a' & Ha' & Hi & _ & _ & Hc & _).
  exists a'. rewrite run_app in Ha'. by split_and!.
Defined.

(** ** Tickets: what stays for good *)

Lemma ticket_kept_step o db tid t :
  tickets_wf db → get_ticket db tid = Some t →
  ∃ t', get_ticket (step o db) tid = Some t' ∧
        client_id t' = client_id t ∧ service_type t' = service_type t ∧
        description t' = description t ∧ created_at t' = created_at t ∧
        (∀ s, assigned_to t = Some s → assigned_to t' = Some s).
Proof.
  intros (Hid & Hinv & _) Hg.
  destruct (get_ticket_Some db tid t Hg) as [Ht <-].
  assert (∀ x, x ∈ service_tickets db → ticket_id x = ticket_id t → x = t) as Hsame.
  { intros x Hx Heq. by apply (NoDup_key_inj ticket_id (service_tickets db)). }
  destruct (step_ticket_change o db)
    as [db' Heq|u st desc now|x sid now Hx Hs|x u now Hx Ha Hs].
  - exists t. unfold get_ticket in *. rewrite Heq. by split_and!.
  - exists t. rewrite get_ticket_add, Hg. by split_and!.
  - destruct (decide (ticket_id x = ticket_id t)) as [Hxt|Hxt].
    + apply Hsame in Hxt as ->; [|done].
      exists (set_assigned t sid now). split_and!; try done.
      * by apply (get_ticket_commit_eq db t (set_assigned t sid now)).
      * intros s Hs'. eapply Forall_forall in Hinv; [|exact Ht].
        destruct Hinv as [Hinv _]. rewrite Hs in Hinv.
        destruct Hinv as [?|?]; [by rewrite Hs'|done..].
    + exists t. rewrite get_ticket_commit_ne by done. by split_and!.
  - destruct (decide (ticket_id x = ticket_id t)) as [Hxt|Hxt].
    + apply Hsame in Hxt as ->; [|done].
      exists (set_completed t now). split_and!; try done.
      by apply (get_ticket_commit_eq db t (set_completed t now)).
    + exists t. rewrite get_ticket_commit_ne by done. by split_and!.
Qed.

(** X10: tickets are permanent: whatever operations follow, a ticket stays
    with its client, service type, description and creation time, and an
    assignment once made is never cleared or changed. *)
Theorem ticket_fields_permanent (ops ops' : list op) (tid : Z)
    (t : ServiceTicket) :
  get_ticket (run ops empty_db) tid = Some t →
  ∃ t', get_ticket (run (ops ++ ops') empty_db) tid = Some t' ∧
        client_id t' = client_id t ∧ service_type t' = service_type t ∧
        description t' = description t ∧ created_at t' = created_at t ∧
        (∀ s, assigned_to t = Some s → assigned_to t' = Some s).
Proof.
  intros Hg. induction ops' as [|o ops' IH] using rev_ind.
  - rewrite app_nil_r. exists t. by split_and!.
  - destruct IH as (t1 & Hg1 & Hc1 & Hs1 & Hd1 & Hr1 & Ha1).
    rewrite app_assoc, run_snoc.
    destruct (ticket_kept_step o (run (ops ++ ops') empty_db) tid t1)
      as (t2 & Hg2 & Hc2 & Hs2 & Hd2 & Hr2 & Ha2); [|done|].
    { apply reachable_wf, run_reachable. }
    exists t2. split_and!; [done|congruence..|]. intros s Hs. auto.
Qed.

Lemma ticket_fields_permanent_witness :
  let t := mkServiceTicket 1 3 "Plumber" "Leaking tap" (Some 1) "In Progress"
             (day1 * 86400000000 + nine_am)
             (day1 * 86400000000 + (nine_am + 1)) in
  get_ticket assigned_db 1 = Some t ∧
  ∃ t', get_ticket (run [complete_by 1] assigned_db) 1 = Some t' ∧
        description t' = "Leaking tap" ∧ assigned_to t' = Some 1.
Proof.
  intros t.
  assert (get_ticket assigned_db 1 = Some t) as Hg by (by vm_compute).
  split; [exact Hg|].
  destruct (ticket_fields_permanent (seed_users ++ [raise_plumber; assign_to_S])
              [complete_by 1] 1 t Hg) as (t' & Hg' & _ & _ & Hd & _ & Ha).
  exists t'. rewrite run_app in Hg'. split_and!; [exact Hg'|exact Hd|].
  by apply Ha.
Defined.

(** ** Tickets: who gets assigned *)

Lemma dict_get_set {V} (k k' : string) (v : V) (d : list (string * V)) :
  dict_get k (dict_set k' v d)
  = if decide (k' = k) then Some v else dict_get k d.
Proof.
  induction d as [|[k1 v1] d IH]; simpl.
  - by case_decide.
  - destruct (decide (k1 = k')) as [->|Hk1]; simpl.
    + by case_decide.
    + destruct (decide (k1 = k)) as [->|Hk]; [|done].
      by rewrite decide_False by congruence.
Qed.

Lemma dict_get_foldl {V} (k : string) (v : V) (kvs d : list (string * V)) :
  dict_get k (foldl (λ d kv, dict_set kv.1 kv.2 d) d kvs) = Some v →
  (k, v) ∈ kvs ∨ dict_get k d = Some v.
Proof.
  revert d. induction kvs as [|[k1 v1] kvs IH]; intros d; simpl; [by right|].
  intros [Hin|Hd]%IH; [left; by apply list_elem_of_further|].
  rewrite dict_get_set in Hd. case_decide as Hk; [|by right].
  left. simplify_eq. apply list_elem_of_here.
Qed.

Lemma dict_get_of_elem {V} (k : string) (v : V) (kvs : list (string * V)) :
  dict_get k (dict_of kvs) = Some v → (k, v) ∈ kvs.
Proof. by intros [?|?]%dict_get_foldl. Qed.




Lemma staff_options_get db k sid :
  dict_get k (staff_options db) = Some sid →
  ∃ s, s ∈ users db ∧ role s = "staff" ∧ k = staff_label s ∧ sid = user_id s.
Proof.
  intros (s & Heq & [Hr Hs]%list_elem_of_filter)%dict_get_of_elem%list_elem_of_fmap.
  exists s. by simplify_eq.
Qed.

Lemma manager_loop_staff inp db ts :
  (manager_loop inp db ts).1 = db ∨
  ∃ t s, t ∈ ts ∧ status t = "Pending" ∧ s ∈ users db ∧ role s = "staff" ∧
    (manager_loop inp db ts).1
      = commit_ticket db (set_assigned t (user_id s) (utcnow inp)).
Proof.
  induction ts as [|t ts IH]; simpl; [by left|].
  assert ((manager_loop inp db ts).1 = db ∨
          ∃ t' s, t' ∈ t :: ts ∧ status t' = "Pending" ∧ s ∈ users db ∧
            role s = "staff" ∧
            (manager_loop inp db ts).1
              = commit_ticket db (set_assigned t' (user_id s) (utcnow inp)))
    as IH'.
  { destruct IH as [?|(t' & s & ? & ? & ? & ? & ?)]; [by left|right].
    exists t', s. split_and!; try done. by apply list_elem_of_further. }
  clear IH. case_decide as Hs.
  - destruct (button_clicked inp (assign_key (ticket_id t))) eqn:Hb.
    + fold (staff_list db). fold (staff_options db).
      destruct (_ ≫= _) as [sid|] eqn:Hsel; simpl; [right|by left].
      apply bind_Some in Hsel as (k & _ & Hk).
      apply staff_options_get in Hk as (s & ? & ? & _ & ->).
      exists t, s. split_and!; try done. apply list_elem_of_here.
    + by destruct (manager_loop inp db ts).
  - by destruct (manager_loop inp db ts).
Qed.

Lemma step_ticket_origin o db t :
  t ∈ service_tickets (step o db) →
  t ∈ service_tickets db ∨ assigned_to t = None ∨
  (∃ s, s ∈ users db ∧ role s = "staff" ∧ assigned_to t = Some (user_id s)) ∨
  (∃ t0, t0 ∈ service_tickets db ∧ assigned_to t = assigned_to t0).
Proof.
  destruct o as [inp ud|inp|u inp|u inp|u|inp|u inp|inp]; simpl.
  - rewrite (proj2 (create_user_tables inp ud db)). by left.
  - rewrite (proj2 (register_user_tables inp db)). by left.
  - unfold staff_attendance. repeat case_match; by left.
  - unfold client_service_request.
    destruct (button_clicked inp "Submit Request"); [|by left].
    destruct (st_selectbox _ _ _); [|by left]. simpl.
    intros [?| ->%list_elem_of_singleton]%elem_of_app; [by left|right; by left].
  - unfold client_view_tickets. case_match; by left.
  - rewrite manager_service_tickets_unfold. case_decide; [by left|]. simpl.
    destruct (manager_loop_staff inp db (service_tickets db))
      as [->|(x & s & Hx & _ & Hs & Hr & ->)]; [by left|]. simpl.
    intros [->|?]%replace_row_elem; [|by left].
    right. right. left. by exists s.
  - destruct (staff_assigned_tickets_db u inp db)
      as [->|(x & Hx & _ & _ & _ & ->)]; [by left|]. simpl.
    intros [->|?]%replace_row_elem; [|by left].
    right. right. right. by exists x.
  - unfold attendance_report. repeat case_match; by left.
Qed.

(** X11: after any sequence of operations the staff member a ticket is
    assigned to is a stored user whose role is staff. *)
Theorem assigned_staff_exists (ops : list op) (t : ServiceTicket) (sid : Z) :
  t ∈ service_tickets (run ops empty_db) →
  assigned_to t = Some sid →
  ∃ u, u ∈ users (run ops empty_db) ∧ user_id u = sid ∧ role u = "staff".
Proof.
  revert t sid. induction ops as [|o ops IH] using rev_ind; intros t sid Ht Ha.
  - by apply elem_of_nil in Ht.
  - rewrite run_snoc in *.
    assert (∀ u, u ∈ users (run ops empty_db) →
                 u ∈ users (step o (run ops empty_db))) as Hkeep.
    { intros u Hu. by apply users_kept_step. }
    apply step_ticket_origin in Ht
      as [Ht|[Hn|[(s & Hs & Hr & Hs')|(t0 & Ht0 & Heq)]]].
    + destruct (IH t sid Ht Ha) as (u & ? & ? & ?). exists u. auto.
    + congruence.
    + exists s. split_and!; [auto| |done]. congruence.
    + rewrite Heq in Ha. destruct (IH t0 sid Ht0 Ha) as (u & ? & ? & ?).
      exists u. auto.
Qed.

Lemma assigned_staff_exists_witness :
  let t := mkServiceTicket 1 3 "Plumber" "Leaking tap" (Some 1) "In Progress"
             (day1 * 86400000000 + nine_am)
             (day1 * 86400000000 + (nine_am + 1)) in
  t ∈ service_tickets assigned_db ∧ assigned_to t = Some 1 ∧
  ∃ u, u ∈ users assigned_db ∧ user_id u = 1 ∧ role u = "staff".
Proof.
  intros t.
  assert (t ∈ service_tickets assigned_db) as Ht
    by (vm_compute; apply list_elem_of_here).
  split; [exact Ht|]. split; [reflexivity|].
  exact (assigned_staff_exists (seed_users ++ [raise_plumber; assign_to_S])
           t 1 Ht eq_refl).
Defined.

(** ** Tickets: the labels of the staff select box *)








(** ** Tickets: a pressed assign button *)

(** A run in which only the assign button of a listed Pending ticket is
    pressed looks the selected staff up, and commits or raises. *)
Lemma manager_loop_hit inp db ts t :
  NoDup (ticket_id <$> ts) → t ∈ ts → status t = "Pending" →
  only_clicked inp (assign_key (ticket_id t)) →
  (manager_loop inp db ts).1
  = match selected_staff_id inp db (ticket_id t) with
    | Some sid => commit_ticket db (set_assigned t sid (utcnow inp))
    | None => db
    end ∧
  last (manager_loop inp db ts).2
  = Some (match selected_staff_id inp db (ticket_id t) with
          | Some _ => StRerun
          | None => Raised "KeyError"
          end).
Proof.
  intros Hnd Ht Hs Hc. induction ts as [|x ts IH]; [by apply elem_of_nil in Ht|].
  rewrite fmap_cons in Hnd. apply NoDup_cons in Hnd as [Hx Hnd]. simpl.
  fold (staff_list db). fold (staff_options db).
  apply elem_of_cons in Ht as [<-|Ht].
  - rewrite decide_True by done. rewrite Hc, bool_decide_eq_true_2 by done.
    fold (selected_staff_id inp db (ticket_id t)).
    by destruct (selected_staff_id inp db (ticket_id t)).
  - assert (button_clicked inp (assign_key (ticket_id x)) = false) as Hb.
    { rewrite Hc. apply bool_decide_eq_false_2. intros Heq%assign_key_inj.
      apply Hx. rewrite Heq. by apply list_elem_of_fmap_2. }
    destruct (IH Hnd Ht) as [IH1 IH2]. rewrite Hb.
    destruct (manager_loop inp db ts) as [db' out]. simpl in *.
    case_decide; simpl; (split; [done|]); rewrite !last_cons; by rewrite IH2.
Qed.

Lemma manager_service_tickets_hit ops tid t inp :
  let db := run ops empty_db in
  get_ticket db tid = Some t → status t = "Pending" →
  only_clicked inp (assign_key tid) →
  (manager_service_tickets inp db).1
  = match selected_staff_id inp db tid with
    | Some sid => commit_ticket db (set_assigned t sid (utcnow inp))
    | None => db
    end ∧
  last (manager_service_tickets inp db).2
  = Some (match selected_staff_id inp db tid with
          | Some _ => StRerun
          | None => Raised "KeyError"
          end).
Proof.
  intros db Hg Hs Hc.
  destruct (reachable_wf db (run_reachable ops)) as [_ (Hid & _ & _)].
  destruct (get_ticket_Some db tid t Hg) as [Ht <-].
  rewrite manager_service_tickets_unfold.
  rewrite decide_False by (intros Hnil; rewrite Hnil in Ht;
                           by apply elem_of_nil in Ht).
  simpl. destruct (manager_loop_hit inp db (service_tickets db) t Hid Ht Hs Hc)
    as [-> Hl]. split; [done|].
  rewrite last_cons. by rewrite Hl.
Qed.

(** X12: with no staff user in the table, pressing the assign button of a
    Pending ticket raises KeyError (the select box is empty and its value
    [None] is not a key of [staff_options]) and stores nothing. *)
Theorem assign_without_staff_raises (ops : list op) (tid : Z)
    (t : ServiceTicket) (inp : Inputs) :
  let db := run ops empty_db in
  get_ticket db tid = Some t → status t = "Pending" →
  only_clicked inp (assign_key tid) →
  (∀ u, u ∈ users db → role u ≠ "staff") →
  (manager_service_tickets inp db).1 = db ∧
  last (manager_service_tickets inp db).2 = Some (Raised "KeyError").
Proof.
  intros db Hg Hs Hc Hno.
  destruct (manager_service_tickets_hit ops tid t inp Hg Hs Hc) as [H1 H2].
  fold db in H1, H2.
  assert (selected_staff_id inp db tid = None) as Hsel.
  { unfold selected_staff_id, staff_options, staff_list.
    assert (filter (λ u, role u = "staff") (users db) = []) as ->.
    { apply elem_of_nil_inv. intros u [Hr Hu]%list_elem_of_filter.
      by apply (Hno u). }
    unfold st_selectbox. simpl.
    by destruct (selectbox_value inp (select_key tid)). }
  by rewrite Hsel in H1, H2.
Qed.

Lemma assign_without_staff_raises_witness :
  let inp := run_inputs day1 five_pm [] [] "assign_1" in
  let t := mkServiceTicket 1 1 "Plumber" "Leaking tap" None "Pending"
             (day1 * 86400000000 + nine_am) (day1 * 86400000000 + nine_am) in
  get_ticket no_staff_db 1 = Some t ∧
  (manager_service_tickets inp no_staff_db).1 = no_staff_db ∧
  last (manager_service_tickets inp no_staff_db).2 = Some (Raised "KeyError").
Proof.
  intros inp t.
  assert (get_ticket no_staff_db 1 = Some t) as Hg by (by vm_compute).
  split; [exact Hg|].
  apply (assign_without_staff_raises
           [CreateUser (run_inputs day1 0 [] [] "")
              (person "C" "c@erp" "3333" "client");
            ClientServiceRequest 1
              (run_inputs day1 nine_am [("Description", "Leaking tap")]
                          [("Service Type", "Plumber")] "Submit Request")]
           1 t inp Hg eq_refl).
  - by intros k.
  - intros u Hu. vm_compute in Hu. elem_cases Hu. by subst u.
Defined.






(** ** The main script: login, logout and the pages of a role *)

Lemma dashboard_menu_outcome ai su db :
  menu_outcome (widgets ai) su db (dashboard_menu ai su db).2.
Proof.
  unfold dashboard_menu.
  repeat (case_decide; simpl;
          try first [ by apply mo_none | by apply mo_register
                    | by apply mo_report; auto | by apply mo_manage; auto
                    | by apply mo_attendance | by apply mo_assigned
                    | by apply mo_raise | by apply mo_view ]).
Qed.

(** A run of the script changes the database only through the page of a
    logged-in user's dashboard. *)
Lemma main_db ai ss db :
  (main ai ss db).1.2 = db ∨
  ∃ su, logged_in ss = true ∧ user ss = Some su ∧
        (main ai ss db).1.1 = ss ∧
        (main ai ss db).1.2 = (dashboard_menu ai su db).2.1.
Proof.
  unfold main.
  destruct (logged_in ss) eqn:Hl; simpl.
  - destruct (button_clicked (widgets ai) "Logout"); simpl.
    + destruct (login_page _ _ _). by left.
    + rewrite Hl. simpl. unfold dashboard.
      destruct (user ss) as [su|] eqn:Hu; [|by left]. right. exists su.
      by destruct (dashboard_menu ai su db) as [radio [db' out]].
  - rewrite Hl. simpl. destruct (login_page _ _ _). by left.
Qed.

Lemma menu_outcome_tables inp su db r :
  menu_outcome inp su db r →
  (users r.1 ≠ users db → su_role su = "admin") ∧
  (attendance r.1 ≠ attendance db → su_role su = "staff") ∧
  (length (service_tickets r.1) ≠ length (service_tickets db) →
   su_role su = "client") ∧
  (service_tickets r.1 ≠ service_tickets db →
   su_role su = "client" ∨ su_role su = "admin" ∨ su_role su = "manager"
   ∨ su_role su = "staff").
Proof.
  intros [out|Hr|Hr|Hr|Hr|Hr|Hr|Hr]; simpl.
  - by split_and!.
  - destruct (register_user_tables inp db) as [-> ->]. by split_and!.
  - assert ((attendance_report inp db).1 = db) as ->
      by (unfold attendance_report; by repeat case_match).
    by split_and!.
  - destruct (manager_service_tickets_db inp db)
      as [->|(t & sid & _ & _ & _ & ->)]; [by split_and!|]. simpl.
    split_and!; try done.
    + unfold replace_row. by rewrite length_fmap.
    + intros _. destruct Hr; auto.
  - assert (users (staff_attendance (su_user_id su) inp db).1 = users db ∧
            service_tickets (staff_attendance (su_user_id su) inp db).1
            = service_tickets db) as [-> ->]
      by (unfold staff_attendance; by repeat case_match).
    by split_and!.
  - destruct (staff_assigned_tickets_db (su_user_id su) inp db)
      as [->|(t & _ & _ & _ & _ & ->)]; [by split_and!|]. simpl.
    split_and!; try done; [|by auto].
    unfold replace_row. by rewrite length_fmap.
  - assert (users (client_service_request (su_user_id su) inp db).1 = users db ∧
            attendance (client_service_request (su_user_id su) inp db).1
            = attendance db) as [-> ->]
      by (unfold client_service_request; by repeat case_match).
    split_and!; try done. by auto.
  - assert ((client_view_tickets (su_user_id su) db).1 = db) as ->
      by (unfold client_view_tickets; by case_match).
    by split_and!.
Qed.

(** X14: a run of the script changes the database only for a logged-in
    session, and then by role: the users table only for an admin, the
    attendance table only for staff, the number of tickets only for a
    client, and the tickets at all only for a client, an admin, a manager
    or staff; a session with any other role changes nothing. *)
Theorem tables_change_by_role (ai : AppInputs) (ss : SessionState) (db : DB) :
  let db' := (main ai ss db).1.2 in
  (db' ≠ db → logged_in ss = true) ∧
  (users db' ≠ users db →
   ∃ su, user ss = Some su ∧ su_role su = "admin") ∧
  (attendance db' ≠ attendance db →
   ∃ su, user ss = Some su ∧ su_role su = "staff") ∧
  (length (service_tickets db') ≠ length (service_tickets db) →
   ∃ su, user ss = Some su ∧ su_role su = "client") ∧
  (service_tickets db' ≠ service_tickets db →
   ∃ su, user ss = Some su ∧
         (su_role su = "client" ∨ su_role su = "admin"
          ∨ su_role su = "manager" ∨ su_role su = "staff")).
Proof.
  simpl. destruct (main_db ai ss db) as [->|(su & Hl & Hu & _ & ->)];
    [by split_and!|].
  destruct (menu_outcome_tables _ su db _ (dashboard_menu_outcome ai su db))
    as (H1 & H2 & H3 & H4).
  split_and!; [done|..]; intros Hne; exists su; auto.
Qed.

(** The rows a page of the dashboard can put into the attendance and the
    ticket table. *)
Lemma menu_outcome_rows inp su db r :
  menu_outcome inp su db r →
  (∀ a, a ∈ attendance r.1 →
        a ∈ attendance db ∨
        (su_role su = "staff" ∧ a_user_id a = su_user_id su
         ∧ a_date a = today inp)) ∧
  (∀ t, t ∈ service_tickets r.1 →
        t ∈ service_tickets db ∨
        (su_role su = "client" ∧ client_id t = su_user_id su
         ∧ status t = "Pending" ∧ assigned_to t = None) ∨
        (su_role su = "staff" ∧ assigned_to t = Some (su_user_id su)
         ∧ status t = "Completed"
         ∧ ∃ t0, t0 ∈ service_tickets db ∧ client_id t = client_id t0) ∨
        ((su_role su = "admin" ∨ su_role su = "manager")
         ∧ status t = "In Progress"
         ∧ (∃ s, s ∈ users db ∧ role s = "staff"
                 ∧ assigned_to t = Some (user_id s))
         ∧ ∃ t0, t0 ∈ service_tickets db ∧ client_id t = client_id t0)).
Proof.
  intros [out|Hr|Hr|Hr|Hr|Hr|Hr|Hr]; simpl.
  - split; intros; by left.
  - destruct (register_user_tables inp db) as [-> ->]. split; intros; by left.
  - assert ((attendance_report inp db).1 = db) as ->
      by (unfold attendance_report; by repeat case_match).
    split; intros; by left.
  - rewrite manager_service_tickets_unfold. case_decide; simpl;
      [split; intros; by left|].
    destruct (manager_loop_staff inp db (service_tickets db))
      as [->|(x & s & Hx & _ & Hs & Hrs & ->)]; [split; intros; by left|].
    simpl. split; [intros; by left|].
    intros t [->|?]%replace_row_elem; [|by left].
    right. right. right. split_and!; [done|done|by exists s|by exists x].
  - split; [|intros t Ht; left; revert Ht; unfold staff_attendance;
             by repeat case_match].
    unfold staff_attendance. rewrite query_attendance_first_records.
    destruct (records_for db (su_user_id su) (today inp)) as [|x l] eqn:Hx; simpl.
    + destruct (button_clicked inp "Check In"); [|intros; by left]. simpl.
      intros a [?| ->%list_elem_of_singleton]%elem_of_app; [by left|by right].
    + assert (x ∈ records_for db (su_user_id su) (today inp)) as Hin
        by (rewrite Hx; apply list_elem_of_here).
      apply list_elem_of_filter in Hin as [[Hu Hd] _].
      destruct (check_out x); [intros; by left|].
      destruct (button_clicked inp "Check Out"); [|intros; by left]. simpl.
      intros a [->|?]%replace_row_elem; [by right|by left].
  - destruct (staff_assigned_tickets_db (su_user_id su) inp db)
      as [->|(x & Hx & Ha & _ & _ & ->)]; [split; intros; by left|].
    simpl. split; [intros; by left|].
    intros t [->|?]%replace_row_elem; [|by left].
    right. right. left. split_and!; [done..|by exists x].
  - split; [intros a Ha; left; revert Ha; unfold client_service_request;
            by repeat case_match|].
    unfold client_service_request.
    destruct (button_clicked inp "Submit Request"); [|intros; by left].
    destruct (st_selectbox _ _ _); [|intros; by left]. simpl.
    intros t [?| ->%list_elem_of_singleton]%elem_of_app; [by left|].
    right. left. by split_and!.
  - assert ((client_view_tickets (su_user_id su) db).1 = db) as ->
      by (unfold client_view_tickets; by case_match).
    split; intros; by left.
Qed.

(** X15: the rows a session can write are its own: a run of the script
    adds or changes an attendance record only for a staff session and only
    that user's record of today; a ticket it adds belongs to the client of
    the session and is Pending and unassigned; a ticket it changes is one
    assigned to the staff user of the session, now Completed, or one that
    an admin or a manager put In Progress with a stored staff user. *)
Theorem session_writes_own_rows (ai : AppInputs) (ss : SessionState)
    (su : SessionUser) (db : DB) :
  user ss = Some su →
  let db' := (main ai ss db).1.2 in
  (∀ a, a ∈ attendance db' →
        a ∈ attendance db ∨
        (su_role su = "staff" ∧ a_user_id a = su_user_id su
         ∧ a_date a = today (widgets ai))) ∧
  (∀ t, t ∈ service_tickets db' →
        t ∈ service_tickets db ∨
        (su_role su = "client" ∧ client_id t = su_user_id su
         ∧ status t = "Pending" ∧ assigned_to t = None) ∨
        (su_role su = "staff" ∧ assigned_to t = Some (su_user_id su)
         ∧ status t = "Completed") ∨
        ((su_role su = "admin" ∨ su_role su = "manager")
         ∧ status t = "In Progress"
         ∧ ∃ s, s ∈ users db ∧ role s = "staff"
                ∧ assigned_to t = Some (user_id s))).
Proof.
  intros Hu. simpl.
  destruct (main_db ai ss db) as [->|(su' & _ & Hu' & _ & ->)];
    [split; intros; by left|].
  assert (su' = su) as -> by congruence.
  destruct (menu_outcome_rows _ su db _ (dashboard_menu_outcome ai su db))
    as [Ha Ht].
  split; [exact Ha|]. intros t Hin.
  destruct (Ht t Hin) as [?|[?|[(? & ? & ? & _)|(? & ? & ? & _)]]]; auto 10.
Qed.

Lemma authenticate_user_Some db e password u :
  authenticate_user db e password = Some u →
  u ∈ users db ∧ email u = e ∧ verify_password password (password_hash u) = true.
Proof.
  unfold authenticate_user. intros Hu.
  destruct (get_user_by_email db e) as [u'|] eqn:Hg; [|done].
  destruct (verify_password password (password_hash u')) eqn:Hv; [|done].
  injection Hu as <-. unfold get_user_by_email in Hg.
  apply head_Some_elem_of, list_elem_of_filter in Hg as [? ?]. done.
Qed.

Lemma main_logged_out ai ss db :
  logged_in ss = false →
  main ai ss db
  = ((login_page (widgets ai) ss db).1, db, (login_page (widgets ai) ss db).2).
Proof.
  intros Hl. unfold main. rewrite Hl. simpl. rewrite Hl. simpl.
  by destruct (login_page _ _ _).
Qed.

(** X16: a run of the script by a session that is not logged in never
    changes the database, and it logs the session in only as a stored user
    who has the typed e-mail and whose stored hash verifies the typed
    password, taking that user's identifier, name and role; in every other
    case the session stays as it was. *)
Theorem login_fails_closed (ai : AppInputs) (ss : SessionState) (db : DB) :
  logged_in ss = false →
  (main ai ss db).1.2 = db ∧
  ((main ai ss db).1.1 = ss ∨
   ∃ u, u ∈ users db ∧
        email u = text_value (widgets ai) "Email" ∧
        verify_password (text_value (widgets ai) "Password") (password_hash u)
          = true ∧
        (main ai ss db).1.1 = session_of u).
Proof.
  intros Hl. rewrite main_logged_out by done. simpl. split; [done|].
  unfold login_page. destruct (button_clicked _ "Login"); [|by left].
  destruct (authenticate_user _ _ _) as [u|] eqn:Ha; [|by left].
  right. exists u. apply authenticate_user_Some in Ha as (? & ? & ?). done.
Qed.

Lemma login_fails_closed_witness :
  let ai := app_inputs (run_inputs day1 nine_am
                          [("Email", "s@erp"); ("Password", "guess")] [] "Login")
                       "Dashboard" in
  logged_in initial_session = false ∧
  (main ai initial_session seeded_db).1 = (initial_session, seeded_db).
Proof.
  intros ai. split; [reflexivity|].
  destruct (login_fails_closed ai initial_session seeded_db eq_refl) as [Hdb _].
  assert ((main ai initial_session seeded_db).1.1 = initial_session) as Hs
    by (by vm_compute).
  destruct (main ai initial_session seeded_db) as [[ss' db'] out].
  simpl in *. by rewrite Hdb, Hs.
Defined.

(** X17: a user stored by [create_user] can log in: a run of the script by
    a logged-out session with that user's e-mail and password typed and
    Login pressed logs the session in as that user and leaves the database
    as it is. *)
Theorem login_after_create_user (inp : Inputs) (ud : UserData) (db db' : DB)
    (u : User) (ai : AppInputs) (ss : SessionState) :
  create_user inp ud db = (db', Ok u) →
  logged_in ss = false →
  text_value (widgets ai) "Email" = ud_email ud →
  text_value (widgets ai) "Password" = ud_password ud →
  button_clicked (widgets ai) "Login" = true →
  (main ai ss db').1 = (session_of u, db') ∧
  last (main ai ss db').2 = Some (Page StRerun).
Proof.
  intros Hc Hl He Hp Hb. rewrite main_logged_out by done. simpl.
  unfold login_page. rewrite Hb, He, Hp.
  assert (authenticate_user db' (ud_email ud) (ud_password ud) = Some u) as ->.
  { unfold authenticate_user.
    assert (get_user_by_email db' (ud_email ud) = Some u) as ->.
    { apply create_user_Ok in Hc as (-> & -> & Hne & _).
      unfold get_user_by_email. simpl. rewrite filter_app.
      apply get_user_by_email_None in Hne. unfold get_user_by_email in Hne.
      apply head_None in Hne. rewrite Hne. by rewrite filter_cons_True. }
    apply create_user_Ok in Hc as (-> & _). simpl.
    unfold verify_password, checkpw, hash_password.
    by rewrite bool_decide_eq_true_2. }
  done.
Qed.

Lemma login_after_create_user_witness :
  let inp := run_inputs day1 0 [] [] "" in
  let ud := person "M" "m@erp" "5555" "manager" in
  let ai := app_inputs (run_inputs day1 nine_am
                          [("Email", "m@erp"); ("Password", "secret")] [] "Login")
                       "Dashboard" in
  ∃ db' u, create_user inp ud seeded_db = (db', Ok u) ∧
           (main ai initial_session db').1 = (session_of u, db').
Proof.
  intros inp ud ai.
  exists (create_user inp ud seeded_db).1, (new_user_row inp ud seeded_db).
  assert (create_user inp ud seeded_db
          = ((create_user inp ud seeded_db).1, Ok (new_user_row inp ud seeded_db)))
    as Hc by (by vm_compute).
  split; [exact Hc|].
  exact (proj1 (login_after_create_user inp ud seeded_db _ _ ai initial_session
                  Hc eq_refl eq_refl eq_refl eq_refl)).
Defined.

(** X18: pressing Logout, and nothing else, in a logged-in session resets
    the session to logged out without a user, leaves the database as it is
    and shows the login page. *)
Theorem logout_resets_session (ai : AppInputs) (ss : SessionState) (db : DB) :
  logged_in ss = true →
  only_clicked (widgets ai) "Logout" →
  main ai ss db
  = (initial_session, db,
     [Page StRerun; StTitle "Login"; Page (StTextInput "Email");
      Page (StTextInput "Password"); Page (StButton "Login")]).
Proof.
  intros Hl Hc. unfold main. rewrite Hl, (Hc "Logout"). simpl.
  unfold login_page. by rewrite (Hc "Login").
Qed.

Lemma logout_resets_session_witness :
  let ai := app_inputs (run_inputs day1 five_pm [] [] "Logout") "Dashboard" in
  let ss := mkSessionState true (Some (mkSessionUser 1 "S" "staff")) in
  logged_in ss = true ∧ only_clicked (widgets ai) "Logout" ∧
  (main ai ss seeded_db).1 = (initial_session, seeded_db).
Proof.
  intros ai ss.
  assert (only_clicked (widgets ai) "Logout") as Hc by (by intros k).
  split; [reflexivity|]. split; [exact Hc|].
  by rewrite (logout_resets_session ai ss seeded_db eq_refl Hc).
Defined.

(** ** The application: sessions and owners *)

Lemma menu_outcome_step inp su db r :
  menu_outcome inp su db r → ∃ o, r.1 = step o db.
Proof.
  intros [out|Hr|Hr|Hr|Hr|Hr|Hr|Hr].
  - exists (ClientViewTickets 0). simpl. unfold client_view_tickets.
    by case_match.
  - by exists (RegisterUser inp).
  - by exists (AttendanceReport inp).
  - by exists (ManagerServiceTickets inp).
  - by exists (StaffAttendance (su_user_id su) inp).
  - by exists (StaffAssignedTickets (su_user_id su) inp).
  - by exists (ClientServiceRequest (su_user_id su) inp).
  - by exists (ClientViewTickets (su_user_id su)).
Qed.

Lemma main_step ai ss db : ∃ o, (main ai ss db).1.2 = step o db.
Proof.
  destruct (main_db ai ss db) as [->|(su & _ & _ & _ & ->)].
  - apply (menu_outcome_step (widgets ai) (mkSessionUser 0 "" "") db (db, [])).
    apply mo_none.
  - apply (menu_outcome_step (widgets ai) su), dashboard_menu_outcome.
Qed.

Lemma main_session ai ss db :
  (main ai ss db).1.1 = ss ∨ (main ai ss db).1.1 = initial_session ∨
  ∃ u, u ∈ users db ∧ (main ai ss db).1.1 = session_of u.
Proof.
  unfold main.
  assert (∀ ss0, (login_page (widgets ai) ss0 db).1 = ss0 ∨
                 ∃ u, u ∈ users db
                      ∧ (login_page (widgets ai) ss0 db).1 = session_of u) as Hlogin.
  { intros ss0. unfold login_page.
    destruct (button_clicked _ "Login"); [|by left].
    destruct (authenticate_user _ _ _) as [u|] eqn:Ha; [|by left].
    right. exists u. by apply authenticate_user_Some in Ha as (? & _). }
  destruct (logged_in ss) eqn:Hl; simpl.
  - destruct (button_clicked (widgets ai) "Logout"); simpl.
    + destruct (Hlogin (mkSessionState false None)) as [H|(u & ? & H)];
        destruct (login_page _ _ _); simpl in *; subst; eauto.
    + rewrite Hl. simpl. destruct (dashboard ai ss db). by left.
  - rewrite Hl. simpl.
    destruct (Hlogin ss) as [H|(u & ? & H)];
      destruct (login_page _ _ _); simpl in *; subst; eauto.
Qed.

Lemma session_ok_mono db db' ss :
  (∀ u, u ∈ users db → u ∈ users db') → session_ok db ss → session_ok db' ss.
Proof. intros Hk [?|(u & ? & ?)]; [by left|right]. exists u. auto. Qed.

Lemma owners_ok_mono db db' :
  (∀ u, u ∈ users db → u ∈ users db') →
  attendance db' = attendance db → service_tickets db' = service_tickets db →
  owners_ok db → owners_ok db'.
Proof.
  intros Hk Ha Ht [Ho1 Ho2]. split.
  - intros a. rewrite Ha. intros (u & ? & ?)%Ho1. exists u. auto.
  - intros t. rewrite Ht. intros (u & ? & ?)%Ho2. exists u. auto.
Qed.

Lemma owners_ok_main ai ss db :
  session_ok db ss → owners_ok db → owners_ok (main ai ss db).1.2.
Proof.
  intros Hss [Ho1 Ho2].
  destruct (main_step ai ss db) as [o Ho].
  assert (∀ u, u ∈ users db → u ∈ users (main ai ss db).1.2) as Hk.
  { intros u Hu. rewrite Ho. by apply users_kept_step. }
  destruct (main_db ai ss db) as [Heq|(su & Hl & Hu & _ & Heq)].
  - rewrite Heq. by split.
  - destruct Hss as [[Hf _]|(u & Hin & ->)]; [congruence|].
    simpl in Hu. injection Hu as <-.
    destruct (menu_outcome_rows _ _ db _ (dashboard_menu_outcome ai
                (mkSessionUser (user_id u) (full_name u) (role u)) db))
      as [Hrows_a Hrows_t].
    rewrite <- Heq in Hrows_a, Hrows_t. simpl in *. split.
    + intros a [Ha|(Hr & Hid & _)]%Hrows_a.
      * destruct (Ho1 a Ha) as (v & ? & ?). exists v. auto.
      * exists u. auto.
    + intros t [Ht|[(Hr & Hid & _)|[(_ & _ & _ & t0 & Ht0 & Hc)
                                   |(_ & _ & _ & t0 & Ht0 & Hc)]]]%Hrows_t.
      * destruct (Ho2 t Ht) as (v & ? & ?). exists v. auto.
      * exists u. auto.
      * destruct (Ho2 t0 Ht0) as (v & ? & ? & ?). exists v.
        split_and!; [auto|congruence|done].
      * destruct (Ho2 t0 Ht0) as (v & ? & ? & ?). exists v.
        split_and!; [auto|congruence|done].
Qed.

Lemma app_run_snoc ops o : app_run (ops ++ [o]) = app_step o (app_run ops).
Proof. unfold app_run. by rewrite foldl_app. Qed.

Lemma app_run_inv ops :
  Forall (session_ok (database (app_run ops))) (sessions (app_run ops)) ∧
  owners_ok (database (app_run ops)) ∧
  ∃ pops, database (app_run ops) = run pops empty_db.
Proof.
  induction ops as [|o ops (Hss & Hown & pops & Hdb)] using rev_ind.
  - split_and!; [apply Forall_nil_2| |by exists []].
    split; intros x Hx; by apply elem_of_nil in Hx.
  - rewrite app_run_snoc. destruct o as [|i ai|inp ud]; simpl.
    + split_and!; [|done|by exists pops].
      apply Forall_app. split; [done|]. apply Forall_singleton. by left.
    + destruct (sessions (app_run ops) !! i) as [ss|] eqn:Hi;
        [|split_and!; [done..|by exists pops]].
      assert (session_ok (database (app_run ops)) ss) as Hok
        by (eapply Forall_lookup_1; eauto).
      pose proof (owners_ok_main ai ss _ Hok Hown) as Hown'.
      pose proof (main_session ai ss (database (app_run ops))) as Hs'.
      destruct (main_step ai ss (database (app_run ops))) as [o Ho].
      destruct (main ai ss (database (app_run ops))) as [[ss' db'] out].
      simpl in *. subst db'.
      assert (∀ u, u ∈ users (database (app_run ops)) →
                   u ∈ users (step o (database (app_run ops)))) as Hk
        by (intros u; apply users_kept_step).
      split_and!; [|done|exists (pops ++ [o]); by rewrite run_snoc, <- Hdb].
      apply Forall_insert.
      * eapply Forall_impl; [exact Hss|]. intros s0. by apply session_ok_mono.
      * destruct Hs' as [->|[->|(u & Hu & ->)]].
        -- by apply (session_ok_mono (database (app_run ops))).
        -- by left.
        -- right. exists u. auto.
    + assert (∀ u, u ∈ users (database (app_run ops)) →
                   u ∈ users (create_user inp ud (database (app_run ops))).1)
        as Hk by (intros u; apply (users_kept_step (CreateUser inp ud))).
      destruct (create_user_tables inp ud (database (app_run ops))) as [Ha Ht].
      split_and!.
      * eapply Forall_impl; [exact Hss|]. intros s0. by apply session_ok_mono.
      * by apply (owners_ok_mono (database (app_run ops))).
      * exists (pops ++ [CreateUser inp ud]). by rewrite run_snoc, <- Hdb.
Qed.

(** X19: in every state the application can reach, each session is either
    logged out without a user, or logged in as a stored user with that
    user's identifier, name and role; so [logged_in] is set exactly when
    the session has a user, and the dashboard finds the role it reads. *)
Theorem sessions_are_stored_users (ops : list app_op) (i : nat)
    (ss : SessionState) :
  sessions (app_run ops) !! i = Some ss →
  (logged_in ss = true ↔ is_Some (user ss)) ∧
  ((logged_in ss = false ∧ user ss = None) ∨
   ∃ u, u ∈ users (database (app_run ops)) ∧ ss = session_of u).
Proof.
  intros Hi. destruct (app_run_inv ops) as (Hss & _ & _).
  assert (session_ok (database (app_run ops)) ss) as Hok
    by (eapply Forall_lookup_1; eauto).
  split; [|exact Hok].
  destruct Hok as [[Hl Hu]|(u & _ & ->)].
  - rewrite Hl, Hu. split; [done|]. by intros [? ?].
  - simpl. split; [by eexists|done].
Qed.

(** X20: in every state the application can reach, each attendance record
    belongs to a stored user whose role is staff and each ticket was raised
    by a stored user whose role is client. *)
Theorem rows_have_owners (ops : list app_op) :
  let db := database (app_run ops) in
  (∀ a, a ∈ attendance db →
        ∃ u, u ∈ users db ∧ user_id u = a_user_id a ∧ role u = "staff") ∧
  (∀ t, t ∈ service_tickets db →
        ∃ u, u ∈ users db ∧ user_id u = client_id t ∧ role u = "client").
Proof. intros db. by destruct (app_run_inv ops) as (_ & Hown & _). Qed.

(** X21: every database the application reaches through runs of the main
    script and the seeding script is reached by a sequence of page
    operations, so what holds after any sequence of page operations holds
    in the running application. *)
Theorem app_database_reachable (ops : list app_op) :
  ∃ pops, database (app_run ops) = run pops empty_db.
Proof. by destruct (app_run_inv ops) as (_ & _ & H). Qed.

Lemma sessions_are_stored_users_witness :
  let ss := mkSessionState true (Some (mkSessionUser 3 "C" "client")) in
  sessions (app_run client_session) !! 0%nat = Some ss ∧
  (logged_in ss = true ↔ is_Some (user ss)).
Proof.
  intros ss.
  assert (sessions (app_run client_session) !! 0%nat = Some ss) as Hi
    by (by vm_compute).
  split; [exact Hi|].
  exact (proj1 (sessions_are_stored_users client_session 0 ss Hi)).
Defined.

Lemma tables_change_by_role_witness :
  let ss := mkSessionState true (Some (mkSessionUser 3 "C" "client")) in
  let ai := app_inputs (run_inputs day1 nine_am [("Description", "Leaking tap")]
                          [("Service Type", "Plumber")] "Submit Request")
                       "Raise Service Request" in
  length (service_tickets (main ai ss seeded_db).1.2)
    ≠ length (service_tickets seeded_db) ∧
  ∃ su, user ss = Some su ∧ su_role su = "client".
Proof.
  intros ss ai.
  assert (length (service_tickets (main ai ss seeded_db).1.2)
          ≠ length (service_tickets seeded_db)) as Hne by (by vm_compute).
  split; [exact Hne|].
  destruct (tables_change_by_role ai ss seeded_db) as (_ & _ & _ & H & _).
  exact (H Hne).
Defined.

Lemma session_writes_own_rows_witness :
  let ss := mkSessionState true (Some (mkSessionUser 3 "C" "client")) in
  let su := mkSessionUser 3 "C" "client" in
  let ai := app_inputs (run_inputs day1 nine_am [("Description", "Leaking tap")]
                          [("Service Type", "Plumber")] "Submit Request")
                       "Raise Service Request" in
  user ss = Some su ∧
  ∀ a, a ∈ attendance (main ai ss seeded_db).1.2 →
       a ∈ attendance seeded_db ∨
       (su_role su = "staff" ∧ a_user_id a = su_user_id su
        ∧ a_date a = today (widgets ai)).
Proof.
  intros ss su ai. split; [reflexivity|].
  exact (proj1 (session_writes_own_rows ai ss su seeded_db eq_refl)).
Defined.

(** ** Client: viewing tickets *)

Lemma client_blocks_ids (l : list ServiceTicket) (tid : Z) :
  StWrite [Lit "**Ticket ID:** "; FInt tid]
    ∈ concat ((λ t, client_ticket_lines t ++ [StWrite [Lit "---"]]) <$> l)
  ↔ ∃ t, t ∈ l ∧ ticket_id t = tid.
Proof.
  induction l as [|x l IH]; simpl.
  - rewrite elem_of_nil. split; [done|]. intros (t & Ht & _).
    by apply elem_of_nil in Ht.
  - split.
    + intros H. elem_cases H.
      * simplify_eq. exists x. split; [apply list_elem_of_here|done].
      * apply IH in H as (t & ? & ?). exists t.
        split; [by apply list_elem_of_further|done].
    + intros (t & [->|Ht]%elem_of_cons & <-).
      * apply list_elem_of_here.
      * do 5 apply list_elem_of_further. apply IH. by exists t.
Qed.

(** X22: the page of a client's tickets never changes the database and
    shows the identifier of a ticket exactly when the ticket was raised by
    the session user: no client sees another client's ticket. *)
Theorem client_sees_own_tickets_only (u : Z) (db : DB) (tid : Z) :
  (client_view_tickets u db).1 = db ∧
  (StWrite [Lit "**Ticket ID:** "; FInt tid] ∈ (client_view_tickets u db).2
   ↔ ∃ t, t ∈ service_tickets db ∧ client_id t = u ∧ ticket_id t = tid).
Proof.
  unfold client_view_tickets.
  destruct (filter (λ t, client_id t = u) (service_tickets db)) as [|x l] eqn:Hf.
  - simpl. split; [done|]. split.
    + intros H. elem_cases H.
    + intros (t & Ht & Hc & _).
      assert (t ∈ filter (λ t, client_id t = u) (service_tickets db)) as Hin
        by (by apply list_elem_of_filter).
      rewrite Hf in Hin. by apply elem_of_nil in Hin.
  - rewrite <- Hf. simpl. split; [done|].
    rewrite elem_of_cons, client_blocks_ids. split.
    + intros [?|(t & [? ?]%list_elem_of_filter & ?)]; [done|]. by exists t.
    + intros (t & ? & ? & ?). right. exists t. split; [|done].
      by apply list_elem_of_filter.
Qed.

Lemma client_sees_own_tickets_only_witness :
  (∃ t, t ∈ service_tickets assigned_db ∧ client_id t = 3 ∧ ticket_id t = 1) ∧
  StWrite [Lit "**Ticket ID:** "; FInt 1] ∈ (client_view_tickets 3 assigned_db).2.
Proof.
  assert (∃ t, t ∈ service_tickets assigned_db ∧ client_id t = 3
               ∧ ticket_id t = 1) as Hex.
  { eexists. split; [vm_compute; apply list_elem_of_here|done]. }
  split; [exact Hex|].
  exact (proj2 (proj2 (client_sees_own_tickets_only 3 assigned_db 1)) Hex).
Defined.

(** ** Check-in and later reports *)

Lemma attendance_kept_run ops db a :
  reachable db → a ∈ attendance db →
  ∃ a', a' ∈ attendance (run ops db) ∧
        attendance_id a' = attendance_id a ∧ a_user_id a' = a_user_id a ∧
        a_date a' = a_date a ∧ check_in a' = check_in a.
Proof.
  intros Hr Ha. induction ops as [|o ops IH] using rev_ind.
  - exists a. by split_and!.
  - destruct IH as (a1 & Ha1 & Hi1 & Hu1 & Hd1 & Hc1). rewrite run_snoc.
    destruct (attendance_kept_step o (run ops db) a1)
      as (a2 & Ha2 & Hi2 & Hu2 & Hd2 & Hc2 & _); [|done|].
    { apply reachable_wf. clear -Hr.
      induction ops as [|o' ops IH] using rev_ind; [done|].
      rewrite run_snoc. by apply reach_step. }
    exists a2. split_and!; [done|congruence..].
Qed.

(** X23: a check-in shows in every later report that covers its day:
    after a pressed check-in on a day without a record and any operations
    that follow, a generated report whose range contains that day has a
    line for that user and day with that check-in time. *)
Theorem check_in_shows_in_later_reports (ops ops' : list op) (u : Z)
    (inp inp' : Inputs) :
  let db := run ops empty_db in
  records_for db u (today inp) = [] →
  button_clicked inp "Check In" = true →
  button_clicked inp' "Generate Report" = true →
  st_date_input inp' "Start Date" (today inp') ≤ today inp
    ≤ st_date_input inp' "End Date" (today inp') →
  ∃ co,
    report_line (mkAttendance (next_id (attendance_id <$> attendance db)) u
                   (today inp) (Some (now_time inp)) co)
    ∈ (attendance_report inp' (run ops' (staff_attendance u inp db).1)).2.
Proof.
  intros db Hr Hb Hb' Hrange.
  assert ((staff_attendance u inp db).1
          = add_attendance db
              (mkAttendance (next_id (attendance_id <$> attendance db)) u
                 (today inp) (Some (now_time inp)) None)) as ->.
  { unfold staff_attendance. by rewrite query_attendance_first_records, Hr, Hb. }
  set (a := mkAttendance _ u _ _ None).
  destruct (attendance_kept_run ops' (add_attendance db a) a)
    as (a' & Ha' & Hi & Hu & Hd & Hc).
  { assert (add_attendance db a = step (StaffAttendance u inp) db) as ->.
    { simpl. unfold staff_attendance.
      by rewrite query_attendance_first_records, Hr, Hb. }
    apply reach_step, run_reachable. }
  { simpl. apply elem_of_app. right. apply list_elem_of_here. }
  exists (check_out a').
  assert (mkAttendance (next_id (attendance_id <$> attendance db)) u
            (today inp) (Some (now_time inp)) (check_out a') = a') as ->.
  { destruct a'. simpl in *. by subst. }
  unfold attendance_report. rewrite Hb'.
  assert (a' ∈ query_attendance_between (run ops' (add_attendance db a))
                 (st_date_input inp' "Start Date" (today inp'))
                 (st_date_input inp' "End Date" (today inp'))) as Hin.
  { apply list_elem_of_filter. split; [|done]. rewrite Hd. exact Hrange. }
  destruct (query_attendance_between _ _ _) as [|x l] eqn:Hq;
    [by apply elem_of_nil in Hin|].
  simpl. do 4 apply list_elem_of_further.
  by apply (list_elem_of_fmap_2 report_line) in Hin.
Qed.

Lemma check_in_shows_in_later_reports_witness :
  let inp := run_inputs day1 nine_am [] [] "Check In" in
  let inp'' :=
    {| today := day1 + 1; now_time := nine_am; utcnow := 0; gensalt := "";
       text_value := λ _, ""; selectbox_value := λ _, None;
       date_value := λ _, Some day1; number_value := λ _, None;
       button_clicked := λ k, bool_decide (k = "Generate Report") |} in
  records_for seeded_db 2 (today inp) = [] ∧
  ∃ co, report_line (mkAttendance 1 2 day1 (Some nine_am) co)
        ∈ (attendance_report inp''
             (run [check_in_S] (staff_attendance 2 inp seeded_db).1)).2.
Proof.
  intros inp inp''. split; [reflexivity|].
  refine (check_in_shows_in_later_reports seed_users [check_in_S] 2 inp inp''
            eq_refl eq_refl eq_refl _).
  vm_compute. split; discriminate.
Defined.

(** ** Creating the same user again *)


